(** * zaplog: a leveled logging facade over zap

    Shallow embedding of [zaplog/logger.go].  The package keeps one
    process-wide [Logger], four file sinks held in package variables and two
    console sinks.  [InitLogger] resolves the options ([loadCfg]), builds the
    sinks ([setSyncers]) and composes one filtered core per severity
    ([cores]).

    Go pointers to [Options] are locations of a heap, so that the record the
    caller passes and the record the logger holds are one object.  A Go panic
    is the [Panic] outcome of the [result] monad. *)

From Stdlib Require Import ZArith Ascii String List Bool Lia.
From stdpp Require Import base option gmap strings list.
Import ListNotations.

Local Open Scope Z_scope.
Local Open Scope string_scope.

(** ** Outcomes: a normal return or a panic *)

Inductive result (A : Type) : Type :=
| Ok (a : A)
| Panic (msg : string).
Arguments Ok {A} a.
Arguments Panic {A} msg.

#[global] Instance result_ret : MRet result := fun A a => Ok a.
#[global] Instance result_bind : MBind result :=
  fun A B f r => match r with Ok a => f a | Panic m => Panic m end.

Definition nil_deref : string :=
  "runtime error: invalid memory address or nil pointer dereference".

(** ** package time: durations are int64 nanoseconds *)

Module time.
Definition Duration := Z.
Definition wrap64 (z : Z) : Z := (z + 2 ^ 63) mod 2 ^ 64 - 2 ^ 63.
Definition Second : Duration := 1000000000.
Definition Minute : Duration := 60 * Second.
Definition Hour : Duration := 60 * Minute.
(** [time.Duration(n)] for an [int] n *)
Definition of_int (n : Z) : Duration := wrap64 n.
(** [a * b] on [Duration] *)
Definition mul (a b : Duration) : Duration := wrap64 (a * b).
End time.

(** ** package zapcore: levels, encoders *)

Module zapcore.
(** [type Level int8] *)
Definition Level := Z.
Definition DebugLevel : Level := -1.
Definition InfoLevel : Level := 0.
Definition WarnLevel : Level := 1.
Definition ErrorLevel : Level := 2.
Definition DPanicLevel : Level := 3.
Definition PanicLevel : Level := 4.
Definition FatalLevel : Level := 5.

Definition wrap8 (z : Z) : Z := (z + 128) mod 256 - 128.
(** [a - b] on [Level], with int8 wrap-around *)
Definition sub (a b : Level) : Level := wrap8 (a - b).

(** The time encoders that occur: zap's two defaults and the two of
    logger.go ([timeEncoder], [timeUnixNano]). *)
Inductive TimeEncoder :=
  | ISO8601TimeEncoder
  | EpochTimeEncoder
  | timeEncoder
  | timeUnixNano.

Record EncoderConfig := { EncodeTime : option TimeEncoder }.

Definition set_EncodeTime (t : TimeEncoder) (c : EncoderConfig) : EncoderConfig :=
    {| EncodeTime := Some t |}.

Inductive Encoder :=
  | NewJSONEncoder (cfg : EncoderConfig)
  | NewConsoleEncoder (cfg : EncoderConfig).
End zapcore.

(** ** package zap: the configuration handed to [Build] *)

Module zap.
(** [AtomicLevel] wraps a pointer; the zero value holds nil. *)
Definition AtomicLevel := option zapcore.Level.

Definition NewAtomicLevelAt (l : zapcore.Level) : AtomicLevel := Some l.

Definition Level_of (a : AtomicLevel) : result zapcore.Level :=
    match a with
    | Some l => Ok l
    | None => Panic nil_deref
    end.

Definition SetLevel (a : AtomicLevel) (l : zapcore.Level) : result AtomicLevel :=
    match a with
    | Some _ => Ok (Some l)
    | None => Panic nil_deref
    end.

Record Config := {
    Level : AtomicLevel;
    Development : bool;
    Encoding : string;
    EncoderConfig : zapcore.EncoderConfig;
    OutputPaths : list string;
    ErrorOutputPaths : list string
  }.

(** [zap.Config{}] *)
Definition zero : Config :=
    {| Level := None; Development := false; Encoding := "";
       EncoderConfig := {| zapcore.EncodeTime := None |};
       OutputPaths := []; ErrorOutputPaths := [] |}.

Definition NewDevelopmentEncoderConfig : zapcore.EncoderConfig :=
    {| zapcore.EncodeTime := Some zapcore.ISO8601TimeEncoder |}.

Definition NewProductionEncoderConfig : zapcore.EncoderConfig :=
    {| zapcore.EncodeTime := Some zapcore.EpochTimeEncoder |}.

(** zap's development profile: level debug, console encoding. *)
Definition NewDevelopmentConfig : Config :=
    {| Level := NewAtomicLevelAt zapcore.DebugLevel;
       Development := true;
       Encoding := "console";
       EncoderConfig := NewDevelopmentEncoderConfig;
       OutputPaths := ["stderr"];
       ErrorOutputPaths := ["stderr"] |}.

(** zap's production profile: level info, JSON encoding. *)
Definition NewProductionConfig : Config :=
    {| Level := NewAtomicLevelAt zapcore.InfoLevel;
       Development := false;
       Encoding := "json";
       EncoderConfig := NewProductionEncoderConfig;
       OutputPaths := ["stderr"];
       ErrorOutputPaths := ["stderr"] |}.

Definition set_Level (a : AtomicLevel) (c : Config) : Config :=
    {| Level := a; Development := Development c; Encoding := Encoding c;
       EncoderConfig := EncoderConfig c; OutputPaths := OutputPaths c;
       ErrorOutputPaths := ErrorOutputPaths c |}.

Definition set_EncoderConfig (e : zapcore.EncoderConfig) (c : Config) : Config :=
    {| Level := Level c; Development := Development c; Encoding := Encoding c;
       EncoderConfig := e; OutputPaths := OutputPaths c;
       ErrorOutputPaths := ErrorOutputPaths c |}.

Definition set_OutputPaths (p : list string) (c : Config) : Config :=
    {| Level := Level c; Development := Development c; Encoding := Encoding c;
       EncoderConfig := EncoderConfig c; OutputPaths := p;
       ErrorOutputPaths := ErrorOutputPaths c |}.

Definition set_ErrorOutputPaths (p : list string) (c : Config) : Config :=
    {| Level := Level c; Development := Development c; Encoding := Encoding c;
       EncoderConfig := EncoderConfig c; OutputPaths := OutputPaths c;
       ErrorOutputPaths := p |}.
End zap.

(** ** The two rotation backends, as the values logger.go hands them *)

Module lumberjack.
Record Logger := {
    Filename : string;
    MaxSize : Z;
    MaxBackups : Z;
    MaxAge : Z;
    Compress : bool;
    LocalTime : bool
  }.
End lumberjack.

Module rotatelogs.
(** The pattern and the options of one [rotatelogs.New] call. *)
Record RotateLogs := {
    pattern : string;
    WithLinkName : string;
    WithMaxAge : time.Duration;
    WithRotationTime : time.Duration
  }.
End rotatelogs.

(** A [zapcore.WriteSyncer] value.  [RotateWS None] is [AddSync] of the nil
    [*RotateLogs] that is left when [rotatelogs.New] failed. *)
Inductive WriteSyncer :=
| NilWS
| LumberjackWS (l : lumberjack.Logger)
| RotateWS (r : option rotatelogs.RotateLogs)
| Stdout
| Stderr.

(** ** package zaplog *)

Record Options := {
  LogLevel : string;
  LogFileDir : string;
  AppName : string;
  ErrorFileName : string;
  WarnFileName : string;
  InfoFileName : string;
  DebugFileName : string;
  MaxSize : Z;
  MaxBackups : Z;
  MaxAge : Z;
  CutType : Z;
  Development : bool;
  Config : zap.Config
}.

(** [Options{}] *)
Definition Options_zero : Options :=
  {| LogLevel := ""; LogFileDir := ""; AppName := ""; ErrorFileName := "";
     WarnFileName := ""; InfoFileName := ""; DebugFileName := "";
     MaxSize := 0; MaxBackups := 0; MaxAge := 0; CutType := 0;
     Development := false; Config := zap.zero |}.

(** The four filter closures of [cores]; each reads the logger's level when
    it is called. *)
Inductive LevelEnabler := errPriority | warnPriority | infoPriority | debugPriority.

(** [zapcore.NewCore(enc, ws, enab)] *)
Record Core := NewCore {
  core_enc : zapcore.Encoder;
  core_out : WriteSyncer;
  core_enab : LevelEnabler
}.

(** The logger [Build] returns after [zap.WrapCore]: a tee of the cores. *)
Record SugaredLogger := { NewTee : list Core }.

Definition loc := nat.

Record Logger := {
  Sugared : option SugaredLogger;
  Opts : option loc;
  zapConfig : zap.Config;
  inited : bool
}.

(** One entry written to one sink. *)
Record Written := {
  w_out : WriteSyncer;
  w_enc : zapcore.Encoder;
  w_level : zapcore.Level;
  w_msg : string
}.

(** The package variables, the [Options] records behind pointers, and what
    has been written so far. *)
Record World := {
  heap : gmap loc Options;
  logger : Logger;
  errWS : WriteSyncer;
  warnWS : WriteSyncer;
  infoWS : WriteSyncer;
  debugWS : WriteSyncer;
  written : list Written
}.

(** What the operating system and the two libraries decide. *)
Record Env := {
  (* string(filepath.Separator) *)
  sp : string;
  (* the path filepath.Abs(filepath.Dir(filepath.Join("."))) returns: the
     absolute working directory, or the empty string with the error that
     loadCfg drops *)
  Abs_dot : string;
  (* the error of rotatelogs.New, if any *)
  rotatelogs_New_err : rotatelogs.RotateLogs -> option string;
  (* the error of zap.Config.Build, if any *)
  Build_err : zap.Config -> option string
}.

(** *** Field updates *)

Definition set_LogFileDir (s : string) (o : Options) : Options :=
  {| LogLevel := LogLevel o; LogFileDir := s; AppName := AppName o;
     ErrorFileName := ErrorFileName o; WarnFileName := WarnFileName o;
     InfoFileName := InfoFileName o; DebugFileName := DebugFileName o;
     MaxSize := MaxSize o; MaxBackups := MaxBackups o; MaxAge := MaxAge o;
     CutType := CutType o; Development := Development o; Config := Config o |}.

Definition set_AppName (s : string) (o : Options) : Options :=
  {| LogLevel := LogLevel o; LogFileDir := LogFileDir o; AppName := s;
     ErrorFileName := ErrorFileName o; WarnFileName := WarnFileName o;
     InfoFileName := InfoFileName o; DebugFileName := DebugFileName o;
     MaxSize := MaxSize o; MaxBackups := MaxBackups o; MaxAge := MaxAge o;
     CutType := CutType o; Development := Development o; Config := Config o |}.

Definition set_ErrorFileName (s : string) (o : Options) : Options :=
  {| LogLevel := LogLevel o; LogFileDir := LogFileDir o; AppName := AppName o;
     ErrorFileName := s; WarnFileName := WarnFileName o;
     InfoFileName := InfoFileName o; DebugFileName := DebugFileName o;
     MaxSize := MaxSize o; MaxBackups := MaxBackups o; MaxAge := MaxAge o;
     CutType := CutType o; Development := Development o; Config := Config o |}.

Definition set_WarnFileName (s : string) (o : Options) : Options :=
  {| LogLevel := LogLevel o; LogFileDir := LogFileDir o; AppName := AppName o;
     ErrorFileName := ErrorFileName o; WarnFileName := s;
     InfoFileName := InfoFileName o; DebugFileName := DebugFileName o;
     MaxSize := MaxSize o; MaxBackups := MaxBackups o; MaxAge := MaxAge o;
     CutType := CutType o; Development := Development o; Config := Config o |}.

Definition set_InfoFileName (s : string) (o : Options) : Options :=
  {| LogLevel := LogLevel o; LogFileDir := LogFileDir o; AppName := AppName o;
     ErrorFileName := ErrorFileName o; WarnFileName := WarnFileName o;
     InfoFileName := s; DebugFileName := DebugFileName o;
     MaxSize := MaxSize o; MaxBackups := MaxBackups o; MaxAge := MaxAge o;
     CutType := CutType o; Development := Development o; Config := Config o |}.

Definition set_DebugFileName (s : string) (o : Options) : Options :=
  {| LogLevel := LogLevel o; LogFileDir := LogFileDir o; AppName := AppName o;
     ErrorFileName := ErrorFileName o; WarnFileName := WarnFileName o;
     InfoFileName := InfoFileName o; DebugFileName := s;
     MaxSize := MaxSize o; MaxBackups := MaxBackups o; MaxAge := MaxAge o;
     CutType := CutType o; Development := Development o; Config := Config o |}.

Definition set_MaxSize (n : Z) (o : Options) : Options :=
  {| LogLevel := LogLevel o; LogFileDir := LogFileDir o; AppName := AppName o;
     ErrorFileName := ErrorFileName o; WarnFileName := WarnFileName o;
     InfoFileName := InfoFileName o; DebugFileName := DebugFileName o;
     MaxSize := n; MaxBackups := MaxBackups o; MaxAge := MaxAge o;
     CutType := CutType o; Development := Development o; Config := Config o |}.

Definition set_MaxBackups (n : Z) (o : Options) : Options :=
  {| LogLevel := LogLevel o; LogFileDir := LogFileDir o; AppName := AppName o;
     ErrorFileName := ErrorFileName o; WarnFileName := WarnFileName o;
     InfoFileName := InfoFileName o; DebugFileName := DebugFileName o;
     MaxSize := MaxSize o; MaxBackups := n; MaxAge := MaxAge o;
     CutType := CutType o; Development := Development o; Config := Config o |}.

Definition set_MaxAge (n : Z) (o : Options) : Options :=
  {| LogLevel := LogLevel o; LogFileDir := LogFileDir o; AppName := AppName o;
     ErrorFileName := ErrorFileName o; WarnFileName := WarnFileName o;
     InfoFileName := InfoFileName o; DebugFileName := DebugFileName o;
     MaxSize := MaxSize o; MaxBackups := MaxBackups o; MaxAge := n;
     CutType := CutType o; Development := Development o; Config := Config o |}.

Definition set_Sugared (s : option SugaredLogger) (lg : Logger) : Logger :=
  {| Sugared := s; Opts := Opts lg; zapConfig := zapConfig lg; inited := inited lg |}.

Definition set_Opts (p : option loc) (lg : Logger) : Logger :=
  {| Sugared := Sugared lg; Opts := p; zapConfig := zapConfig lg; inited := inited lg |}.

Definition set_zapConfig (c : zap.Config) (lg : Logger) : Logger :=
  {| Sugared := Sugared lg; Opts := Opts lg; zapConfig := c; inited := inited lg |}.

Definition set_inited (b : bool) (lg : Logger) : Logger :=
  {| Sugared := Sugared lg; Opts := Opts lg; zapConfig := zapConfig lg; inited := b |}.

Definition set_heap (h : gmap loc Options) (w : World) : World :=
  {| heap := h; logger := logger w; errWS := errWS w; warnWS := warnWS w;
     infoWS := infoWS w; debugWS := debugWS w; written := written w |}.

Definition set_logger (lg : Logger) (w : World) : World :=
  {| heap := heap w; logger := lg; errWS := errWS w; warnWS := warnWS w;
     infoWS := infoWS w; debugWS := debugWS w; written := written w |}.

Definition set_syncers (e wa i d : WriteSyncer) (w : World) : World :=
  {| heap := heap w; logger := logger w; errWS := e; warnWS := wa;
     infoWS := i; debugWS := d; written := written w |}.

Definition add_written (ws : list Written) (w : World) : World :=
  {| heap := heap w; logger := logger w; errWS := errWS w; warnWS := warnWS w;
     infoWS := infoWS w; debugWS := debugWS w; written := (written w ++ ws)%list |}.

(** [*p] for a pointer to [Options] *)
Definition deref (w : World) (p : option loc) : result Options :=
  match p with
  | None => Panic nil_deref
  | Some l =>
      match heap w !! l with
      | Some o => Ok o
      | None => Panic nil_deref
      end
  end.

(** [*p = o] *)
Definition store (p : option loc) (o : Options) (w : World) : result World :=
  match p with
  | None => Panic nil_deref
  | Some l => Ok (set_heap (<[l := o]> (heap w)) w)
  end.

(** ** loadCfg (logger.go:85-141) *)

(** Lines 86-110: the base profile, the output paths and the level. *)
Definition loadCfg_config (o : Options) : result zap.Config :=
  let zc :=
    if Development o
    then zap.set_EncoderConfig
           (zapcore.set_EncodeTime zapcore.timeEncoder
              (zap.EncoderConfig zap.NewDevelopmentConfig))
           zap.NewDevelopmentConfig
    else zap.set_EncoderConfig
           (zapcore.set_EncodeTime zapcore.timeUnixNano
              (zap.EncoderConfig zap.NewProductionConfig))
           zap.NewProductionConfig in
  let zc :=
    match zap.OutputPaths (Config o) with
    | [] => zap.set_OutputPaths ["stdout"] zc
    | _ => zc
    end in
  let zc :=
    match zap.ErrorOutputPaths (Config o) with
    | [] => zap.set_ErrorOutputPaths ["stderr"] zc
    | _ => zc
    end in
  lv ← (if String.eqb (LogLevel o) "debug" then zap.SetLevel (zap.Level zc) zapcore.DebugLevel
        else if String.eqb (LogLevel o) "info" then zap.SetLevel (zap.Level zc) zapcore.InfoLevel
        else if String.eqb (LogLevel o) "warn" then zap.SetLevel (zap.Level zc) zapcore.WarnLevel
        else if String.eqb (LogLevel o) "error" then zap.SetLevel (zap.Level zc) zapcore.ErrorLevel
        else Ok (zap.Level zc));
  Ok (zap.set_Level lv zc).

(** Lines 113-140: the defaults written into the options. *)
Definition loadCfg_defaults (env : Env) (o : Options) : Options :=
  let o := if String.eqb (LogFileDir o) ""
           then set_LogFileDir (Abs_dot env +:+ sp env +:+ "logs" +:+ sp env) o
           else o in
  let o := if String.eqb (AppName o) "" then set_AppName "app" o else o in
  let o := if String.eqb (ErrorFileName o) "" then set_ErrorFileName "error.log" o else o in
  let o := if String.eqb (WarnFileName o) "" then set_WarnFileName "warn.log" o else o in
  let o := if String.eqb (InfoFileName o) "" then set_InfoFileName "info.log" o else o in
  let o := if String.eqb (DebugFileName o) "" then set_DebugFileName "debug.log" o else o in
  let o := if (MaxSize o =? 0)%Z then set_MaxSize 100 o else o in
  let o := if (MaxBackups o =? 0)%Z then set_MaxBackups 30 o else o in
  let o := if (MaxAge o =? 0)%Z then set_MaxAge 30 o else o in
  o.

Definition loadCfg (env : Env) (w : World) : result World :=
  let lg := logger w in
  o ← deref w (Opts lg);
  zc ← loadCfg_config o;
  store (Opts lg) (loadCfg_defaults env o) (set_logger (set_zapConfig zc lg) w).

(** ** setSyncers (logger.go:143-171) *)

(** The pattern and the options [f] passes to [rotatelogs.New]
    (logger.go:157-162). *)
Definition rotate_args (env : Env) (o : Options) (fName : string) : rotatelogs.RotateLogs :=
  {| rotatelogs.pattern :=
       LogFileDir o +:+ sp env +:+ AppName o +:+ "-" +:+ fName +:+ ".%Y_%m%d_%H";
     rotatelogs.WithLinkName := LogFileDir o +:+ sp env +:+ AppName o +:+ "-" +:+ fName;
     rotatelogs.WithMaxAge :=
       time.mul (time.mul (time.of_int (MaxAge o)) 24) time.Hour;
     rotatelogs.WithRotationTime := time.Minute |}.

(** The closure [f] of [setSyncers], on the options the logger points to. *)
Definition f (env : Env) (o : Options) (fName : string) : WriteSyncer :=
  if (CutType o =? 0)%Z then
    LumberjackWS
      {| lumberjack.Filename := LogFileDir o +:+ sp env +:+ AppName o +:+ "-" +:+ fName;
         lumberjack.MaxSize := MaxSize o;
         lumberjack.MaxBackups := MaxBackups o;
         lumberjack.MaxAge := MaxAge o;
         lumberjack.Compress := true;
         lumberjack.LocalTime := true |}
  else
    (* logf, _ := rotatelogs.New(...): the error is dropped, logf is nil then *)
    RotateWS (match rotatelogs_New_err env (rotate_args env o fName) with
              | None => Some (rotate_args env o fName)
              | Some _ => None
              end).

Definition setSyncers (env : Env) (w : World) : result World :=
  o ← deref w (Opts (logger w));
  Ok (set_syncers (f env o (ErrorFileName o)) (f env o (WarnFileName o))
                  (f env o (InfoFileName o)) (f env o (DebugFileName o)) w).

(** ** cores (logger.go:173-209) *)

(** The body of each closure; [&&] evaluates its right operand only when the
    left one holds. *)
Definition Enabled (lg : Logger) (p : LevelEnabler) (lvl : zapcore.Level) : result bool :=
  match p with
  | errPriority =>
      if lvl >=? zapcore.ErrorLevel
      then l ← zap.Level_of (zap.Level (zapConfig lg));
           Ok (zapcore.sub zapcore.ErrorLevel l >? -1)
      else Ok false
  | warnPriority =>
      if lvl >=? zapcore.WarnLevel
      then l ← zap.Level_of (zap.Level (zapConfig lg));
           Ok (zapcore.sub zapcore.WarnLevel l >? -1)
      else Ok false
  | infoPriority =>
      if lvl >=? zapcore.InfoLevel
      then l ← zap.Level_of (zap.Level (zapConfig lg));
           Ok (zapcore.sub zapcore.InfoLevel l >? -1)
      else Ok false
  | debugPriority =>
      if lvl >=? zapcore.DebugLevel
      then l ← zap.Level_of (zap.Level (zapConfig lg));
           Ok (zapcore.sub zapcore.DebugLevel l >? -1)
      else Ok false
  end.

(** [debugConsoleWS] and [errorConsoleWS] *)
Definition debugConsoleWS : WriteSyncer := Stdout.
Definition errorConsoleWS : WriteSyncer := Stderr.

(** [cores := []zapcore.Core{...}]: one JSON core per severity, each on its
    own file sink. *)
Definition file_cores (w : World) : list Core :=
  let fileEncoder := zapcore.NewJSONEncoder (zap.EncoderConfig (zapConfig (logger w))) in
  [ NewCore fileEncoder (errWS w) errPriority;
    NewCore fileEncoder (warnWS w) warnPriority;
    NewCore fileEncoder (infoWS w) infoPriority;
    NewCore fileEncoder (debugWS w) debugPriority ].

(** The cores appended in development mode. *)
Definition console_cores : list Core :=
  let encoderConfig :=
    zapcore.set_EncodeTime zapcore.timeEncoder
      (zap.EncoderConfig zap.NewDevelopmentConfig) in
  let consoleEncoder := zapcore.NewConsoleEncoder encoderConfig in
  [ NewCore consoleEncoder errorConsoleWS errPriority;
    NewCore consoleEncoder debugConsoleWS warnPriority;
    NewCore consoleEncoder debugConsoleWS infoPriority;
    NewCore consoleEncoder debugConsoleWS debugPriority ].

Definition cores (w : World) : result (list Core) :=
  let cs := file_cores w in
  o ← deref w (Opts (logger w));
  Ok (if Development o then (cs ++ console_cores)%list else cs).

(** ** Logging through the tee (zap's [Check] then [Write]) *)

(** The cores of the tee whose filter accepts the level. *)
Fixpoint Check (lg : Logger) (lvl : zapcore.Level) (cs : list Core) : result (list Core) :=
  match cs with
  | [] => Ok ([] : list Core)
  | c :: cs =>
      b ← Enabled lg (core_enab c) lvl;
      rest ← Check lg lvl cs;
      Ok (if (b : bool) then c :: rest else rest)
  end.

(** Each accepting core encodes the entry and writes it to its sink; a write
    through a nil sink dereferences nil. *)
Fixpoint Write (lvl : zapcore.Level) (msg : string) (cs : list Core) : result (list Written) :=
  match cs with
  | [] => Ok ([] : list Written)
  | c :: cs =>
      match core_out c with
      | NilWS | RotateWS None => Panic nil_deref
      | out =>
          rest ← Write lvl msg cs;
          Ok ({| w_out := out; w_enc := core_enc c; w_level := lvl; w_msg := msg |} :: rest)
      end
  end.

(** A log call at one of the severities debug, info, warn, error. *)
Definition log (lvl : zapcore.Level) (msg : string) (w : World) : result World :=
  match Sugared (logger w) with
  | None => Panic nil_deref
  | Some s =>
      cs ← Check (logger w) lvl (NewTee s);
      ws ← Write lvl msg cs;
      Ok (add_written ws w)
  end.

Definition Logger_Debug : string -> World -> result World := log zapcore.DebugLevel.
Definition Logger_Info : string -> World -> result World := log zapcore.InfoLevel.
Definition Logger_Warn : string -> World -> result World := log zapcore.WarnLevel.
Definition Logger_Error : string -> World -> result World := log zapcore.ErrorLevel.

(** ** init (logger.go:74-83) *)

(** [Build] is given the option [cores] returns, so [cores] runs first.  The
    deferred [Sync] reaches sinks whose [Sync] does nothing or whose error is
    not looked at; it leaves the state as it is. *)
Definition init (env : Env) (w : World) : result World :=
  w ← setSyncers env w;
  cs ← cores w;
  match Build_err env (zapConfig (logger w)) with
  | Some err => Panic err
  | None => Ok (set_logger (set_Sugared (Some {| NewTee := cs |}) (logger w)) w)
  end.

(** ** InitLogger (logger.go:52-67) *)

(** The calls are taken one after the other, so the lock around the body is
    always free when it is asked for. *)
Definition InitLogger (env : Env) (cfg : list (option loc)) (w : World) : result World :=
  if inited (logger w) then
    Logger_Info "[initLogger] zaplog already initialized" w
  else
    let w := match cfg with
             | c :: _ => set_logger (set_Opts c (logger w)) w
             | [] => w
             end in
    w ← loadCfg env w;
    w ← init env w;
    w ← Logger_Info "[initLogger] zap plugin initializing completed" w;
    Ok (set_logger (set_inited true (logger w)) w).

(** The package initializer: [logger = &Logger{Opts: &Options{}}]. *)
Definition package_init : World :=
  {| heap := {[ 0%nat := Options_zero ]};
     logger := {| Sugared := None; Opts := Some 0%nat; zapConfig := zap.zero;
                  inited := false |};
     errWS := NilWS; warnWS := NilWS; infoWS := NilWS; debugWS := NilWS;
     written := [] |}.

(** ** GetLogger (logger.go:69-72) *)

(** The package's one logger, as it is at the time of the call. *)
Definition GetLogger (w : World) : Logger := logger w.

(** ** timeUnixNano (logger.go:215-217) *)

(** A [time.Time], by the int64 that [t.UnixNano()] returns. *)
Record Time := { UnixNano : Z }.

(** What a [zapcore.PrimitiveArrayEncoder] has been asked to append. *)
Inductive Primitive :=
| AppendString (s : string)
| AppendInt64 (n : Z).

(** [enc.AppendInt64(t.UnixNano() / 1e6)]: the division of two int64 values
    truncates toward zero. *)
Definition timeUnixNano (t : Time) (enc : list Primitive) : list Primitive :=
  (enc ++ [AppendInt64 (Z.quot (UnixNano t) 1000000)])%list.

(** ** The file a time-based sink writes to *)

(** file-rotatelogs names the file in use from the clock at each write
    ([GenerateFn]): the wall clock is rounded down to a multiple of the
    rotation time and given to the strftime pattern, and a new file is
    started when the name changes. *)

(** The wall clock of the sink: what [Now()] shows in the clock's location. *)
Record Wall := {
  year : Z;
  month : Z;
  day : Z;
  hour : Z;
  minute : Z;
  second : Z;
  nanosecond : Z
}.

(** A clock reading, with a year of four digits. *)
Definition wall_ok (c : Wall) : Prop :=
  (0 <= year c <= 9999)%Z /\ (1 <= month c <= 12)%Z /\ (1 <= day c <= 31)%Z /\
  (0 <= hour c <= 23)%Z /\ (0 <= minute c <= 59)%Z /\ (0 <= second c <= 59)%Z /\
  (0 <= nanosecond c < 1000000000)%Z.

(** Nanoseconds since midnight. *)
Definition time_of_day (c : Wall) : Z :=
  (hour c * time.Hour + minute c * time.Minute + second c * time.Second
   + nanosecond c)%Z.

(** [t.Truncate(d)] on the wall clock: [d <= 0] leaves it alone; a [d] that
    divides the day rounds the time of day down and keeps the date.  Other
    durations need the calendar and are left out ([None]); the package
    passes [time.Minute]. *)
Definition Truncate (d : time.Duration) (c : Wall) : option Wall :=
  if (d <=? 0)%Z then Some c
  else if (24 * time.Hour mod d =? 0)%Z then
    let t := (time_of_day c - time_of_day c mod d)%Z in
    Some {| year := year c; month := month c; day := day c;
            hour := (t / time.Hour)%Z;
            minute := (t mod time.Hour / time.Minute)%Z;
            second := (t mod time.Minute / time.Second)%Z;
            nanosecond := (t mod time.Second)%Z |}
  else None.

(** Decimal digits, zero-padded to two and to four places. *)
Definition digit (n : Z) : ascii := ascii_of_nat (48 + Z.to_nat n).

Definition pad2 (n : Z) : string :=
  String (digit (n / 10)) (String (digit (n mod 10)) "").

Definition pad4 (n : Z) : string :=
  String (digit (n / 1000)) (String (digit (n / 100 mod 10)) (pad2 (n mod 100))).

(** The strftime verbs for year, month, day, hour, minute, second and the
    percent sign; [None] for any other verb, which this model leaves out. *)
Definition verb (v : ascii) (c : Wall) : option string :=
  if Ascii.eqb v "Y"%char then Some (pad4 (year c))
  else if Ascii.eqb v "m"%char then Some (pad2 (month c))
  else if Ascii.eqb v "d"%char then Some (pad2 (day c))
  else if Ascii.eqb v "H"%char then Some (pad2 (hour c))
  else if Ascii.eqb v "M"%char then Some (pad2 (minute c))
  else if Ascii.eqb v "S"%char then Some (pad2 (second c))
  else if Ascii.eqb v "%"%char then Some "%"
  else None.

(** [pattern.FormatString(t)]: verbs are replaced, everything else is
    copied. *)
Fixpoint strftime (p : string) (c : Wall) : option string :=
  match p with
  | EmptyString => Some ""
  | String ch rest =>
      if Ascii.eqb ch "%"%char then
        match rest with
        | EmptyString => None
        | String v rest' =>
            match verb v c, strftime rest' c with
            | Some s, Some out => Some (s +:+ out)
            | _, _ => None
            end
        end
      else
        match strftime rest c with
        | Some out => Some (String ch out)
        | None => None
        end
  end.

(** The name of the file in use at the clock reading [now]. *)
Definition GenerateFn (r : rotatelogs.RotateLogs) (now : Wall) : option string :=
  match Truncate (rotatelogs.WithRotationTime r) now with
  | Some base => strftime (rotatelogs.pattern r) base
  | None => None
  end.

(** No percent sign: nothing strftime would read as a verb. *)
Fixpoint no_percent (s : string) : bool :=
  match s with
  | EmptyString => true
  | String ch rest => negb (Ascii.eqb ch "%"%char) && no_percent rest
  end.

(** Two clock readings in the same hour of the same day. *)
Definition same_hour (c1 c2 : Wall) : Prop :=
  year c1 = year c2 /\ month c1 = month c2 /\ day c1 = day c2 /\ hour c1 = hour c2.

(** The name an hourly file has: the link name, then the date and the
    hour. *)
Definition hourly_name (link : string) (c : Wall) : string :=
  link +:+ "." +:+ pad4 (year c) +:+ "_" +:+ pad2 (month c) +:+ pad2 (day c)
       +:+ "_" +:+ pad2 (hour c).

(** ** Programs over the package *)

(** What a client can do: call [InitLogger], log through [GetLogger()] at one
    of the four severities, or assign to an [Options] record it holds a
    pointer to. *)
Inductive Call :=
| CallInitLogger (env : Env) (cfg : list (option loc))
| CallLog (lvl : LevelEnabler) (msg : string)
| CallAssign (p : loc) (o : Options).

(** * Vocabulary of the statements *)

(** The level the filters compare against. *)
Definition minimum_level (w : World) : result zapcore.Level :=
  zap.Level_of (zap.Level (zapConfig (logger w))).

(** The level the base profile of [loadCfg] starts from. *)
Definition profile_level (o : Options) : zapcore.Level :=
  if Development o then zapcore.DebugLevel else zapcore.InfoLevel.

(** The severity each filter is built for. *)
Definition severity (p : LevelEnabler) : zapcore.Level :=
  match p with
  | errPriority => zapcore.ErrorLevel
  | warnPriority => zapcore.WarnLevel
  | infoPriority => zapcore.InfoLevel
  | debugPriority => zapcore.DebugLevel
  end.

(** The two thresholds of a filter, for a minimum level [m]. *)
Definition accepts (m lvl : zapcore.Level) (c : Core) : bool :=
  (severity (core_enab c) <=? lvl)%Z && (m <=? severity (core_enab c))%Z.

(** The pointer [InitLogger] installs: [cfg[0]] when given, else the one held. *)
Definition installed (cfg : list (option loc)) (w : World) : option loc :=
  match cfg with
  | c :: _ => c
  | [] => Opts (logger w)
  end.

(** [new] is [old] unless [old] is the empty value, and then the default. *)
Definition defaulted {A : Type} (empty dflt old new : A) : Prop :=
  (old = empty -> new = dflt) /\ (old <> empty -> new = old).

(** [o'] is [o] with every empty field among the directory, the application
    name, the four file names, the size, the backup count and the age set to
    its default, and nothing else changed. *)
Definition resolved (env : Env) (o o' : Options) : Prop :=
  defaulted "" (Abs_dot env +:+ sp env +:+ "logs" +:+ sp env) (LogFileDir o) (LogFileDir o') /\
  defaulted "" "app" (AppName o) (AppName o') /\
  defaulted "" "error.log" (ErrorFileName o) (ErrorFileName o') /\
  defaulted "" "warn.log" (WarnFileName o) (WarnFileName o') /\
  defaulted "" "info.log" (InfoFileName o) (InfoFileName o') /\
  defaulted "" "debug.log" (DebugFileName o) (DebugFileName o') /\
  defaulted 0%Z 100%Z (MaxSize o) (MaxSize o') /\
  defaulted 0%Z 30%Z (MaxBackups o) (MaxBackups o') /\
  defaulted 0%Z 30%Z (MaxAge o) (MaxAge o') /\
  LogLevel o' = LogLevel o /\ CutType o' = CutType o /\
  Development o' = Development o /\ Config o' = Config o.

(** The entry one core writes. *)
Definition entry (lvl : zapcore.Level) (msg : string) (c : Core) : Written :=
  {| w_out := core_out c; w_enc := core_enc c; w_level := lvl; w_msg := msg |}.

(** The entries written between the states [w] and [w']. *)
Definition new_entries (w w' : World) : list Written :=
  drop (length (written w)) (written w').

Definition is_stdout (e : Written) : bool :=
  match w_out e with Stdout => true | _ => false end.

Definition is_stderr (e : Written) : bool :=
  match w_out e with Stderr => true | _ => false end.

(** The two console sinks. *)
Definition console (s : WriteSyncer) : bool :=
  match s with
  | Stdout | Stderr => true
  | _ => false
  end.

(** A sink a write can go through: not nil. *)
Definition open_sink (s : WriteSyncer) : bool :=
  match s with
  | NilWS | RotateWS None => false
  | _ => true
  end.

(** Every [rotatelogs.New] call succeeds. *)
Definition rotation_ok (env : Env) : Prop :=
  forall a, rotatelogs_New_err env a = None.

(** Every [Build] call succeeds. *)
Definition build_ok (env : Env) : Prop :=
  forall c, Build_err env c = None.

(** The state a returning [loadCfg] leaves. *)
Definition after_loadCfg (env : Env) (w : World) : World :=
  match loadCfg env w with
  | Ok w' => w'
  | Panic _ => w
  end.

(** The state a returning [InitLogger] leaves. *)
Definition after_InitLogger (env : Env) (cfg : list (option loc)) (w : World) : World :=
  match InitLogger env cfg w with
  | Ok w' => w'
  | Panic _ => w
  end.

(** One call, then a sequence of calls; a panic ends the program. *)
Definition run (c : Call) (w : World) : result World :=
  match c with
  | CallInitLogger env cfg => InitLogger env cfg w
  | CallLog pr msg => log (severity pr) msg w
  | CallAssign p o => Ok (set_heap (<[p := o]> (heap w)) w)
  end.

Fixpoint run_all (cs : list Call) (w : World) : result World :=
  match cs with
  | [] => Ok w
  | c :: cs => w' ← run c w; run_all cs w'
  end.

(** The file sink of each severity. *)
Definition file_sink (S : LevelEnabler) (w : World) : WriteSyncer :=
  match S with
  | errPriority => errWS w
  | warnPriority => warnWS w
  | infoPriority => infoWS w
  | debugPriority => debugWS w
  end.

(** The file name of each severity. *)
Definition file_name (S : LevelEnabler) (o : Options) : string :=
  match S with
  | errPriority => ErrorFileName o
  | warnPriority => WarnFileName o
  | infoPriority => InfoFileName o
  | debugPriority => DebugFileName o
  end.

(** * Sample environments, options and states *)

(** An environment in which every library call succeeds. *)
Definition env0 : Env :=
  {| sp := "/"; Abs_dot := "/srv/app";
     rotatelogs_New_err := fun _ => None;
     Build_err := fun _ => None |}.

(** [Build] fails whatever the configuration. *)
Definition env_build_fails : Env :=
  {| sp := "/"; Abs_dot := "/srv/app";
     rotatelogs_New_err := fun _ => None;
     Build_err := fun _ => Some "zap: build failed" |}.

(** [rotatelogs.New] fails whatever the pattern. *)
Definition env_rotate_fails : Env :=
  {| sp := "/"; Abs_dot := "/srv/app";
     rotatelogs_New_err := fun _ => Some "rotatelogs: invalid strftime pattern";
     Build_err := fun _ => None |}.

(** The options of [TestZaplog] (logger_test.go:11-21). *)
Definition test_data : Options :=
  {| LogLevel := "info"; LogFileDir := "../logs"; AppName := "logtool";
     ErrorFileName := ""; WarnFileName := ""; InfoFileName := ""; DebugFileName := "";
     MaxSize := 30; MaxBackups := 7; MaxAge := 7; CutType := 1;
     Development := true; Config := zap.zero |}.

(** [&Options{Development: true}] *)
Definition dev_options : Options :=
  {| LogLevel := ""; LogFileDir := ""; AppName := ""; ErrorFileName := "";
     WarnFileName := ""; InfoFileName := ""; DebugFileName := "";
     MaxSize := 0; MaxBackups := 0; MaxAge := 0; CutType := 0;
     Development := true; Config := zap.zero |}.

(** [&Options{LogLevel: "verbose"}] *)
Definition verbose_options : Options :=
  {| LogLevel := "verbose"; LogFileDir := ""; AppName := ""; ErrorFileName := "";
     WarnFileName := ""; InfoFileName := ""; DebugFileName := "";
     MaxSize := 0; MaxBackups := 0; MaxAge := 0; CutType := 0;
     Development := false; Config := zap.zero |}.

(** [&Options{LogLevel: "warn", Development: true}] *)
Definition warn_options : Options :=
  {| LogLevel := "warn"; LogFileDir := ""; AppName := ""; ErrorFileName := "";
     WarnFileName := ""; InfoFileName := ""; DebugFileName := "";
     MaxSize := 0; MaxBackups := 0; MaxAge := 0; CutType := 0;
     Development := true; Config := zap.zero |}.

(** [&Options{LogLevel: "error", CutType: 1}] *)
Definition error_timed_options : Options :=
  {| LogLevel := "error"; LogFileDir := ""; AppName := ""; ErrorFileName := "";
     WarnFileName := ""; InfoFileName := ""; DebugFileName := "";
     MaxSize := 0; MaxBackups := 0; MaxAge := 0; CutType := 1;
     Development := false; Config := zap.zero |}.

(** [&Options{Config: zap.Config{OutputPaths: ..., ErrorOutputPaths: ...}}] *)
Definition paths_options : Options :=
  {| LogLevel := ""; LogFileDir := ""; AppName := ""; ErrorFileName := "";
     WarnFileName := ""; InfoFileName := ""; DebugFileName := "";
     MaxSize := 0; MaxBackups := 0; MaxAge := 0; CutType := 0;
     Development := false;
     Config := zap.set_ErrorOutputPaths ["/var/log/app.err"]
                 (zap.set_OutputPaths ["/var/log/app.out"] zap.zero) |}.

(** The package state with the record of [TestZaplog] allocated at location
    1, before [InitLogger(data)]. *)
Definition test_world : World :=
  set_heap (<[ 1%nat := test_data ]> (heap package_init)) package_init.

(** The package state once a caller's record [o], held at location 1, has
    been installed as [logger.Opts]. *)
Definition world_with (o : Options) : World :=
  set_logger (set_Opts (Some 1%nat) (logger package_init))
    (set_heap (<[ 1%nat := o ]> (heap package_init)) package_init).

(** [InitLogger(data)] of [TestZaplog], evaluated. *)
Definition test_inited : World :=
  Eval vm_compute in after_InitLogger env0 [Some 1%nat] test_world.

(** [InitLogger(&Options{LogLevel: "warn", Development: true})], evaluated. *)
Definition warn_inited : World :=
  Eval vm_compute in after_InitLogger env0 [Some 1%nat] (world_with warn_options).

(** [&Options{AppName: "app%M", CutType: 1}]: an application name with a
    percent sign in it. *)
Definition minute_options : Options :=
  {| LogLevel := ""; LogFileDir := "/var/log"; AppName := "app%M"; ErrorFileName := "";
     WarnFileName := ""; InfoFileName := ""; DebugFileName := "";
     MaxSize := 0; MaxBackups := 0; MaxAge := 0; CutType := 1;
     Development := false; Config := zap.zero |}.

(** Two clock readings in one hour, and one in the next. *)
Definition clock_1 : Wall :=
  {| year := 2026; month := 10; day := 31; hour := 7; minute := 20; second := 5;
     nanosecond := 120 |}.

Definition clock_2 : Wall :=
  {| year := 2026; month := 10; day := 31; hour := 7; minute := 59; second := 59;
     nanosecond := 999999999 |}.

Definition clock_3 : Wall :=
  {| year := 2026; month := 10; day := 31; hour := 8; minute := 0; second := 0;
     nanosecond := 0 |}.

(** The state a returning program leaves. *)
Definition after_run_all (cs : list Call) (w : World) : World :=
  match run_all cs w with
  | Ok w' => w'
  | Panic _ => w
  end.

(** After [InitLogger(data)]: the caller overwrites its record, calls
    [InitLogger] again with the package's own record, and logs an error. *)
Definition late_calls : list Call :=
  [ CallAssign 1%nat dev_options;
    CallInitLogger env_build_fails [Some 0%nat];
    CallLog errPriority "err log 0" ].

Definition late_final : World :=
  Eval vm_compute in after_run_all late_calls test_inited.

(** [&Options{MaxAge: 106752, CutType: 1}] *)
Definition far_options : Options :=
  {| LogLevel := ""; LogFileDir := ""; AppName := ""; ErrorFileName := "";
     WarnFileName := ""; InfoFileName := ""; DebugFileName := "";
     MaxSize := 0; MaxBackups := 0; MaxAge := 106752; CutType := 1;
     Development := false; Config := zap.zero |}.

(** [InitLogger(&Options{Development: true})], size-based, evaluated. *)
Definition dev_inited : World :=
  Eval vm_compute in after_InitLogger env0 [Some 1%nat] (world_with dev_options).

(** * Properties *)

(** ** The panic monad *)

Lemma bind_Ok {A B : Type} (r : result A) (k : A -> result B) (b : B) :
  r ≫= k = Ok b -> exists a, r = Ok a /\ k a = Ok b.
Proof. destruct r as [a|m]; simpl; [eauto | discriminate]. Qed.

Ltac inv_bind H :=
  let a := fresh "x" in
  let Ha := fresh "H" in
  apply bind_Ok in H; destruct H as (a & Ha & H).

Lemma deref_Some (w : World) (p : loc) (o : Options) :
  heap w !! p = Some o -> deref w (Some p) = Ok o.
Proof. intros H. unfold deref. now rewrite H. Qed.

(** ** loadCfg *)

Lemma loadCfg_config_level (o : Options) :
  exists zc, loadCfg_config o = Ok zc /\
    zap.Level zc = Some
      (if String.eqb (LogLevel o) "debug" then zapcore.DebugLevel
       else if String.eqb (LogLevel o) "info" then zapcore.InfoLevel
       else if String.eqb (LogLevel o) "warn" then zapcore.WarnLevel
       else if String.eqb (LogLevel o) "error" then zapcore.ErrorLevel
       else profile_level o).
Proof.
  unfold loadCfg_config, profile_level.
  destruct (Development o), (zap.OutputPaths (Config o)), (zap.ErrorOutputPaths (Config o));
    destruct (String.eqb (LogLevel o) "debug"); simpl; eauto;
    destruct (String.eqb (LogLevel o) "info"); simpl; eauto;
    destruct (String.eqb (LogLevel o) "warn"); simpl; eauto;
    destruct (String.eqb (LogLevel o) "error"); simpl; eauto.
Qed.

Lemma loadCfg_config_range (o : Options) (zc : zap.Config) :
  loadCfg_config o = Ok zc ->
  exists m, zap.Level zc = Some m /\ -1 <= m <= 2.
Proof.
  intros H. destruct (loadCfg_config_level o) as (zc' & E & L).
  rewrite H in E. injection E as <-. eexists; split; [exact L|].
  unfold profile_level, zapcore.DebugLevel, zapcore.InfoLevel, zapcore.WarnLevel,
    zapcore.ErrorLevel.
  repeat match goal with |- context [if ?c then _ else _] => destruct c end; lia.
Qed.

(** One conditional assignment of [loadCfg], as a single update. *)
Lemma default_string (get : Options -> string) (set : string -> Options -> Options)
    (v : string) (o : Options) :
  (forall o, set (get o) o = o) ->
  (if String.eqb (get o) "" then set v o else o) =
  set (if String.eqb (get o) "" then v else get o) o.
Proof. intros Hid. destruct (String.eqb (get o) ""); [reflexivity | now rewrite Hid]. Qed.

Lemma default_int (get : Options -> Z) (set : Z -> Options -> Options)
    (v : Z) (o : Options) :
  (forall o, set (get o) o = o) ->
  (if (get o =? 0)%Z then set v o else o) =
  set (if (get o =? 0)%Z then v else get o) o.
Proof. intros Hid. destruct (get o =? 0)%Z; [reflexivity | now rewrite Hid]. Qed.

Ltac set_get_id := let o := fresh "o" in intros o; destruct o; reflexivity.

(** Unfold the first [let] of the goal's left-hand side only. *)
Ltac zeta_head :=
  match goal with
  | |- (let x := ?v in @?b x) = ?r => change (b v = r); cbv beta
  end.

Ltac default_step get set :=
  first [ rewrite (default_string get set) by set_get_id
        | rewrite (default_int get set) by set_get_id ];
  cbn beta iota delta [LogLevel LogFileDir AppName ErrorFileName WarnFileName InfoFileName
       DebugFileName MaxSize MaxBackups MaxAge CutType Development Config
       set_LogFileDir set_AppName set_ErrorFileName set_WarnFileName
       set_InfoFileName set_DebugFileName set_MaxSize set_MaxBackups set_MaxAge].

(** [loadCfg_defaults] field by field. *)
Lemma loadCfg_defaults_fields (env : Env) (o : Options) :
  loadCfg_defaults env o =
  {| LogLevel := LogLevel o;
     LogFileDir := if String.eqb (LogFileDir o) ""
                   then Abs_dot env +:+ sp env +:+ "logs" +:+ sp env
                   else LogFileDir o;
     AppName := if String.eqb (AppName o) "" then "app" else AppName o;
     ErrorFileName := if String.eqb (ErrorFileName o) "" then "error.log" else ErrorFileName o;
     WarnFileName := if String.eqb (WarnFileName o) "" then "warn.log" else WarnFileName o;
     InfoFileName := if String.eqb (InfoFileName o) "" then "info.log" else InfoFileName o;
     DebugFileName := if String.eqb (DebugFileName o) "" then "debug.log" else DebugFileName o;
     MaxSize := if (MaxSize o =? 0)%Z then 100 else MaxSize o;
     MaxBackups := if (MaxBackups o =? 0)%Z then 30 else MaxBackups o;
     MaxAge := if (MaxAge o =? 0)%Z then 30 else MaxAge o;
     CutType := CutType o;
     Development := Development o;
     Config := Config o |}.
Proof.
  destruct o as [ll dir app ef wf inf df ms mb ma ct dev cfg].
  cbv beta delta [loadCfg_defaults].
  default_step LogFileDir set_LogFileDir. zeta_head.
  default_step AppName set_AppName. zeta_head.
  default_step ErrorFileName set_ErrorFileName. zeta_head.
  default_step WarnFileName set_WarnFileName. zeta_head.
  default_step InfoFileName set_InfoFileName. zeta_head.
  default_step DebugFileName set_DebugFileName. zeta_head.
  default_step MaxSize set_MaxSize. zeta_head.
  default_step MaxBackups set_MaxBackups. zeta_head.
  default_step MaxAge set_MaxAge. cbv zeta.
  reflexivity.
Qed.

Lemma loadCfg_defaults_frame (env : Env) (o : Options) :
  LogLevel (loadCfg_defaults env o) = LogLevel o /\
  CutType (loadCfg_defaults env o) = CutType o /\
  Development (loadCfg_defaults env o) = Development o /\
  Config (loadCfg_defaults env o) = Config o.
Proof. rewrite loadCfg_defaults_fields. simpl. auto. Qed.

Lemma loadCfg_Ok (env : Env) (w : World) (p : loc) (o : Options) :
  Opts (logger w) = Some p -> heap w !! p = Some o ->
  exists zc, loadCfg_config o = Ok zc /\
    loadCfg env w =
      Ok (set_heap (<[p := loadCfg_defaults env o]> (heap w))
            (set_logger (set_zapConfig zc (logger w)) w)).
Proof.
  intros HO Hh. destruct (loadCfg_config_level o) as (zc & E & _).
  exists zc. split; [exact E|].
  unfold loadCfg. rewrite HO, (deref_Some _ _ _ Hh). simpl. rewrite E. reflexivity.
Qed.

Lemma defaulted_string (d x : string) :
  defaulted "" d x (if String.eqb x "" then d else x).
Proof.
  unfold defaulted. destruct (String.eqb_spec x ""); split; congruence.
Qed.

Lemma defaulted_int (d x : Z) :
  defaulted 0 d x (if (x =? 0)%Z then d else x).
Proof.
  unfold defaulted. destruct (Z.eqb_spec x 0); split; congruence.
Qed.

Lemma loadCfg_heap (env : Env) (w w' : World) (p : loc) (o : Options) :
  Opts (logger w) = Some p -> heap w !! p = Some o ->
  loadCfg env w = Ok w' ->
  heap w' = <[p := loadCfg_defaults env o]> (heap w) /\
  Opts (logger w') = Some p /\
  inited (logger w') = inited (logger w) /\
  Sugared (logger w') = Sugared (logger w) /\
  loadCfg_config o = Ok (zapConfig (logger w')).
Proof.
  intros HO Hh H. destruct (loadCfg_Ok env w p o HO Hh) as (zc & Hzc & E).
  rewrite E in H. injection H as <-. simpl. auto.
Qed.

Lemma loadCfg_defaults_resolved (env : Env) (o : Options) :
  resolved env o (loadCfg_defaults env o).
Proof.
  unfold resolved. rewrite loadCfg_defaults_fields. simpl.
  repeat split; try apply defaulted_string; try apply defaulted_int.
Qed.

(** C8: [loadCfg] returns, and in the record the logger points to each of the
    directory, the application name, the four file names, the size, the
    backup count and the age is the documented default when it was empty (the
    directory is [logs] under the absolute working directory) and is unchanged
    when it was set; the level string, the rotation selector, the development
    flag and the embedded zap configuration are unchanged. *)
Theorem loadCfg_fills_defaults (env : Env) (w : World) (p : loc) (o : Options) :
  Opts (logger w) = Some p -> heap w !! p = Some o ->
  exists w' o',
    loadCfg env w = Ok w' /\ heap w' !! p = Some o' /\ resolved env o o'.
Proof.
  intros HO Hh. destruct (loadCfg_Ok env w p o HO Hh) as (zc & _ & E).
  eexists. exists (loadCfg_defaults env o). split; [exact E|].
  split; [simpl; apply lookup_insert_eq|].
  apply loadCfg_defaults_resolved.
Qed.

Lemma loadCfg_fills_defaults_witness :
  exists w' o',
    loadCfg env0 (world_with test_data) = Ok w' /\ heap w' !! 1%nat = Some o' /\
    resolved env0 test_data o'.
Proof.
  apply (loadCfg_fills_defaults env0 (world_with test_data) 1%nat test_data);
    reflexivity.
Defined.

(** C2, as stated, fails: with [Development] set and [LogLevel] empty the
    level after [loadCfg] is debug, not info. *)
Lemma loadCfg_empty_level_dev_is_debug :
  LogLevel dev_options = "" /\
  (loadCfg env0 (world_with dev_options) ≫= minimum_level) = Ok zapcore.DebugLevel /\
  (loadCfg env0 (world_with dev_options) ≫= minimum_level) <> Ok zapcore.InfoLevel.
Proof.
  split; [reflexivity|]. split; [reflexivity|].
  intros H. vm_compute in H. discriminate H.
Qed.

(** C2, amended: when [LogLevel] is empty, [loadCfg] returns and the minimum
    level is the one of the base profile: info when [Development] is false,
    debug when it is true. *)
Theorem loadCfg_empty_level (env : Env) (w : World) (p : loc) (o : Options) :
  Opts (logger w) = Some p -> heap w !! p = Some o ->
  LogLevel o = "" ->
  exists w', loadCfg env w = Ok w' /\
    minimum_level w' = Ok (if Development o then zapcore.DebugLevel else zapcore.InfoLevel).
Proof.
  intros HO Hh HL. destruct (loadCfg_Ok env w p o HO Hh) as (zc & Hzc & E).
  eexists. split; [exact E|].
  destruct (loadCfg_config_level o) as (zc' & Hzc' & Hl).
  rewrite Hzc in Hzc'. injection Hzc' as <-.
  unfold minimum_level. simpl. rewrite Hl, HL. reflexivity.
Qed.

Lemma loadCfg_empty_level_witness :
  exists w', loadCfg env0 (world_with dev_options) = Ok w' /\
    minimum_level w' =
      Ok (if Development dev_options then zapcore.DebugLevel else zapcore.InfoLevel).
Proof.
  apply (loadCfg_empty_level env0 (world_with dev_options) 1%nat dev_options);
    reflexivity.
Defined.

(** C9: for every [Options] record the logger points to, [loadCfg] returns
    normally; a level string that is none of debug, info, warn, error changes
    nothing: the minimum level stays the one of the base profile. *)
Theorem loadCfg_total (env : Env) (w : World) (p : loc) (o : Options) :
  Opts (logger w) = Some p -> heap w !! p = Some o ->
  exists w', loadCfg env w = Ok w' /\
    (LogLevel o <> "debug" -> LogLevel o <> "info" ->
     LogLevel o <> "warn" -> LogLevel o <> "error" ->
     minimum_level w' = Ok (profile_level o)).
Proof.
  intros HO Hh. destruct (loadCfg_Ok env w p o HO Hh) as (zc & Hzc & E).
  eexists. split; [exact E|]. intros Hd Hi Hw He.
  destruct (loadCfg_config_level o) as (zc' & Hzc' & Hl).
  rewrite Hzc in Hzc'. injection Hzc' as <-.
  unfold minimum_level. simpl. rewrite Hl.
  apply String.eqb_neq in Hd, Hi, Hw, He. rewrite Hd, Hi, Hw, He. reflexivity.
Qed.

Lemma loadCfg_total_witness :
  exists w', loadCfg env0 (world_with verbose_options) = Ok w' /\
    (LogLevel verbose_options <> "debug" -> LogLevel verbose_options <> "info" ->
     LogLevel verbose_options <> "warn" -> LogLevel verbose_options <> "error" ->
     minimum_level w' = Ok (profile_level verbose_options)).
Proof.
  apply (loadCfg_total env0 (world_with verbose_options) 1%nat verbose_options);
    reflexivity.
Defined.

(** ** The four filters *)

Local Open Scope Z_scope.

Lemma sub_small (a b : Z) :
  -128 <= a - b <= 127 -> zapcore.sub a b = a - b.
Proof.
  intros H. unfold zapcore.sub, zapcore.wrap8.
  rewrite Z.mod_small by lia. lia.
Qed.

(** A logger whose level is one [loadCfg] can leave: between debug and
    error, where the int8 subtraction of the filters does not wrap. *)
Section LoadedLevel.

Variable lg : Logger.
Variable m : zapcore.Level.
Hypothesis level_set : zap.Level (zapConfig lg) = Some m.
Hypothesis level_range : -1 <= m <= 2.

(** Each filter is the conjunction of two thresholds. *)
Lemma Enabled_threshold (p : LevelEnabler) (lvl : zapcore.Level) :
  Enabled lg p lvl = Ok ((severity p <=? lvl) && (m <=? severity p)).
Proof.
  destruct p; unfold Enabled, severity; rewrite level_set; simpl;
    unfold zapcore.ErrorLevel, zapcore.WarnLevel, zapcore.InfoLevel, zapcore.DebugLevel;
    rewrite Z.geb_leb; destruct (_ <=? lvl); simpl; try reflexivity;
    rewrite sub_small by lia; f_equal; rewrite Z.gtb_ltb;
    apply eq_true_iff_eq; rewrite Z.ltb_lt, Z.leb_le; lia.
Qed.

(** [Check] keeps the cores whose two thresholds are met. *)
Lemma Check_filter (lvl : zapcore.Level) (cs : list Core) :
  Check lg lvl cs = Ok (List.filter (accepts m lvl) cs).
Proof.
  induction cs as [|c cs IH]; simpl; [reflexivity|].
  rewrite Enabled_threshold. simpl. rewrite IH. simpl.
  unfold accepts. reflexivity.
Qed.

End LoadedLevel.

Lemma loadCfg_level_range (env : Env) (w w' : World) (p : loc) (o : Options) :
  Opts (logger w) = Some p -> heap w !! p = Some o ->
  loadCfg env w = Ok w' ->
  exists m, zap.Level (zapConfig (logger w')) = Some m /\ -1 <= m <= 2.
Proof.
  intros HO Hh H.
  destruct (loadCfg_heap env w w' p o HO Hh H) as (_ & _ & _ & _ & Hc).
  exact (loadCfg_config_range o _ Hc).
Qed.

(** C4: after [loadCfg], with m the configured minimum level, the filter of
    each severity S accepts a record level L exactly when S <= L and m <= S;
    the filters are thresholds that do not exclude one another: a level that
    reaches two enabled severities is accepted by both filters. *)
Theorem filters_are_thresholds (env : Env) (w w' : World) (p : loc) (o : Options) :
  Opts (logger w) = Some p -> heap w !! p = Some o ->
  loadCfg env w = Ok w' ->
  exists m, minimum_level w' = Ok m /\
    (forall (S : LevelEnabler) (L : zapcore.Level),
        exists b, Enabled (logger w') S L = Ok b /\
                  (b = true <-> severity S <= L /\ m <= severity S)) /\
    (forall (S1 S2 : LevelEnabler) (L : zapcore.Level),
        severity S1 <= L -> severity S2 <= L ->
        m <= severity S1 -> m <= severity S2 ->
        Enabled (logger w') S1 L = Ok true /\ Enabled (logger w') S2 L = Ok true).
Proof.
  intros HO Hh H.
  destruct (loadCfg_level_range env w w' p o HO Hh H) as (m & Hm & Hr).
  exists m. split; [unfold minimum_level; now rewrite Hm|]. split.
  - intros S L. eexists. split; [apply (Enabled_threshold _ m); assumption|].
    rewrite andb_true_iff, !Z.leb_le. tauto.
  - intros S1 S2 L H1 H2 H3 H4.
    rewrite !(Enabled_threshold _ m) by assumption.
    apply Z.leb_le in H1, H2, H3, H4. rewrite H1, H2, H3, H4. auto.
Qed.

Lemma filters_are_thresholds_witness :
  exists w', loadCfg env0 (world_with test_data) = Ok w' /\
  exists m, minimum_level w' = Ok m /\
    (forall (S : LevelEnabler) (L : zapcore.Level),
        exists b, Enabled (logger w') S L = Ok b /\
                  (b = true <-> severity S <= L /\ m <= severity S)) /\
    (forall (S1 S2 : LevelEnabler) (L : zapcore.Level),
        severity S1 <= L -> severity S2 <= L ->
        m <= severity S1 -> m <= severity S2 ->
        Enabled (logger w') S1 L = Ok true /\ Enabled (logger w') S2 L = Ok true).
Proof.
  eexists. split; [reflexivity|].
  apply (filters_are_thresholds env0 (world_with test_data) _ 1%nat test_data);
    reflexivity.
Defined.

(** With the options of [TestZaplog] (level info), an error record passes the
    error, warn and info filters and not the debug one. *)
Example error_record_passes_three_filters :
  exists w', loadCfg env0 (world_with test_data) = Ok w' /\
    map (fun S => Enabled (logger w') S zapcore.ErrorLevel)
        [errPriority; warnPriority; infoPriority; debugPriority]
    = [Ok true; Ok true; Ok true; Ok false].
Proof. eexists. split; reflexivity. Qed.

(** ** Check and Write *)

Lemma Write_open (lvl : zapcore.Level) (msg : string) (cs : list Core) :
  forallb (fun c => open_sink (core_out c)) cs = true ->
  Write lvl msg cs = Ok (map (entry lvl msg) cs).
Proof.
  induction cs as [|c cs IH]; simpl; [reflexivity|].
  intros H. apply andb_true_iff in H as [Hc Hcs]. rewrite (IH Hcs).
  unfold entry. destruct (core_out c) as [| |[]| |]; simpl in *;
    try discriminate; reflexivity.
Qed.

Lemma Write_inv (lvl : zapcore.Level) (msg : string) (cs : list Core) (ws : list Written) :
  Write lvl msg cs = Ok ws ->
  ws = map (entry lvl msg) cs /\ forallb (fun c => open_sink (core_out c)) cs = true.
Proof.
  revert ws. induction cs as [|c cs IH]; simpl; intros ws H.
  - injection H as <-. auto.
  - unfold entry.
    destruct (core_out c) as [| |[]| |]; try discriminate;
      inv_bind H; injection H as <-; destruct (IH _ H0) as [-> ->]; auto.
Qed.

Lemma log_inv (lvl : zapcore.Level) (msg : string) (w w' : World) (m : zapcore.Level) :
  zap.Level (zapConfig (logger w)) = Some m -> -1 <= m <= 2 ->
  log lvl msg w = Ok w' ->
  exists s, Sugared (logger w) = Some s /\
    w' = add_written (map (entry lvl msg) (List.filter (accepts m lvl) (NewTee s))) w /\
    forallb (fun c => open_sink (core_out c)) (List.filter (accepts m lvl) (NewTee s)) = true.
Proof.
  intros Hm Hr H. unfold log in H.
  destruct (Sugared (logger w)) as [s|]; [|discriminate].
  rewrite (Check_filter _ m) in H by assumption. simpl in H.
  inv_bind H. injection H as <-.
  apply Write_inv in H0 as [-> Hopen]. eauto.
Qed.

Lemma log_open (lvl : zapcore.Level) (msg : string) (w : World) (m : zapcore.Level)
    (s : SugaredLogger) :
  zap.Level (zapConfig (logger w)) = Some m -> -1 <= m <= 2 ->
  Sugared (logger w) = Some s ->
  forallb (fun c => open_sink (core_out c)) (List.filter (accepts m lvl) (NewTee s)) = true ->
  log lvl msg w =
    Ok (add_written (map (entry lvl msg) (List.filter (accepts m lvl) (NewTee s))) w).
Proof.
  intros Hm Hr Hs Hopen. unfold log. rewrite Hs.
  rewrite (Check_filter _ m) by assumption. simpl.
  rewrite (Write_open _ _ _ Hopen). reflexivity.
Qed.

(** ** init and InitLogger *)

(** [init] on a world whose logger points to [o]: the four sinks are set, and
    the outcome is decided by [Build] alone. *)
Lemma init_eq (env : Env) (w : World) (p : loc) (o : Options) :
  Opts (logger w) = Some p -> heap w !! p = Some o ->
  init env w =
    let w1 := set_syncers (f env o (ErrorFileName o)) (f env o (WarnFileName o))
                (f env o (InfoFileName o)) (f env o (DebugFileName o)) w in
    match Build_err env (zapConfig (logger w)) with
    | Some err => Panic err
    | None =>
        Ok (set_logger
              (set_Sugared
                 (Some {| NewTee := if Development o
                                    then (file_cores w1 ++ console_cores)%list
                                    else file_cores w1 |})
                 (logger w)) w1)
    end.
Proof.
  intros HO Hh. unfold init, setSyncers, cores.
  rewrite HO, (deref_Some _ _ _ Hh). simpl.
  rewrite HO. unfold deref. simpl. rewrite Hh. reflexivity.
Qed.

Lemma file_cores_ext (w w' : World) :
  zapConfig (logger w') = zapConfig (logger w) ->
  errWS w' = errWS w -> warnWS w' = warnWS w ->
  infoWS w' = infoWS w -> debugWS w' = debugWS w ->
  file_cores w' = file_cores w.
Proof. intros Hc He Hw Hi Hd. unfold file_cores. now rewrite Hc, He, Hw, Hi, Hd. Qed.

Lemma init_inv (env : Env) (w w' : World) (p : loc) (o : Options) :
  Opts (logger w) = Some p -> heap w !! p = Some o ->
  init env w = Ok w' ->
  Build_err env (zapConfig (logger w)) = None /\
  heap w' = heap w /\ written w' = written w /\
  Opts (logger w') = Some p /\
  zapConfig (logger w') = zapConfig (logger w) /\
  inited (logger w') = inited (logger w) /\
  errWS w' = f env o (ErrorFileName o) /\
  warnWS w' = f env o (WarnFileName o) /\
  infoWS w' = f env o (InfoFileName o) /\
  debugWS w' = f env o (DebugFileName o) /\
  Sugared (logger w') =
    Some {| NewTee := if Development o
                      then (file_cores w' ++ console_cores)%list
                      else file_cores w' |}.
Proof.
  intros HO Hh H. rewrite (init_eq env w p o HO Hh) in H. cbv zeta in H.
  destruct (Build_err env (zapConfig (logger w))); [discriminate|].
  injection H as <-. repeat split; try reflexivity; exact HO.
Qed.

Lemma log_fields (lvl : zapcore.Level) (msg : string) (w w' : World) (m : zapcore.Level) :
  zap.Level (zapConfig (logger w)) = Some m -> -1 <= m <= 2 ->
  log lvl msg w = Ok w' ->
  logger w' = logger w /\ heap w' = heap w /\
  errWS w' = errWS w /\ warnWS w' = warnWS w /\
  infoWS w' = infoWS w /\ debugWS w' = debugWS w /\
  exists s, Sugared (logger w) = Some s /\
    written w' =
      (written w ++ map (entry lvl msg) (List.filter (accepts m lvl) (NewTee s)))%list /\
    forallb (fun c => open_sink (core_out c))
            (List.filter (accepts m lvl) (NewTee s)) = true.
Proof.
  intros Hm Hr H. destruct (log_inv lvl msg w w' m Hm Hr H) as (s & Hs & -> & Hopen).
  repeat (split; [reflexivity|]). exists s. auto.
Qed.

(** What a first [InitLogger] that returns has done. *)
Lemma InitLogger_fresh (env : Env) (cfg : list (option loc)) (w w' : World)
    (p : loc) (o : Options) :
  inited (logger w) = false -> installed cfg w = Some p -> heap w !! p = Some o ->
  InitLogger env cfg w = Ok w' ->
  exists zc m,
    loadCfg_config o = Ok zc /\ zap.Level zc = Some m /\ -1 <= m <= 2 /\
    Build_err env zc = None /\
    heap w' = <[p := loadCfg_defaults env o]> (heap w) /\
    Opts (logger w') = Some p /\
    zapConfig (logger w') = zc /\
    inited (logger w') = true /\
    Sugared (logger w') =
      Some {| NewTee := if Development o
                        then (file_cores w' ++ console_cores)%list
                        else file_cores w' |} /\
    errWS w' = f env (loadCfg_defaults env o) (ErrorFileName (loadCfg_defaults env o)) /\
    warnWS w' = f env (loadCfg_defaults env o) (WarnFileName (loadCfg_defaults env o)) /\
    infoWS w' = f env (loadCfg_defaults env o) (InfoFileName (loadCfg_defaults env o)) /\
    debugWS w' = f env (loadCfg_defaults env o) (DebugFileName (loadCfg_defaults env o)) /\
    exists s, Sugared (logger w') = Some s /\
      written w' =
        (written w ++
         map (entry zapcore.InfoLevel "[initLogger] zap plugin initializing completed")
             (List.filter (accepts m zapcore.InfoLevel) (NewTee s)))%list /\
      forallb (fun c => open_sink (core_out c))
              (List.filter (accepts m zapcore.InfoLevel) (NewTee s)) = true.
Proof.
  intros Hi Hp Hh H. unfold InitLogger in H. rewrite Hi in H.
  set (w0 := match cfg with
             | c :: _ => set_logger (set_Opts c (logger w)) w
             | [] => w
             end) in H.
  assert (HO0 : Opts (logger w0) = Some p)
    by (subst w0; destruct cfg; simpl in *; assumption).
  assert (Hh0 : heap w0 = heap w) by (subst w0; destruct cfg; reflexivity).
  assert (Hw0 : written w0 = written w) by (subst w0; destruct cfg; reflexivity).
  assert (Hh0' : heap w0 !! p = Some o) by (rewrite Hh0; exact Hh).
  clearbody w0.
  inv_bind H. inv_bind H. inv_bind H. injection H as <-.
  rename x into w1, x0 into w2, x1 into w3, H0 into Hload, H1 into Hinit, H2 into Hlog.
  pose proof (loadCfg_Ok env w0 p o HO0 Hh0') as (zc & Hzc & E).
  rewrite E in Hload. clear E.
  assert (F1 : heap w1 = <[p := loadCfg_defaults env o]> (heap w0) /\
               Opts (logger w1) = Some p /\ zapConfig (logger w1) = zc /\
               written w1 = written w0)
    by (injection Hload as <-; repeat split; assumption).
  clear Hload. destruct F1 as (Hh1 & HO1 & Hc1 & Hw1).
  destruct (loadCfg_config_range o zc Hzc) as (m & Hm & Hr).
  assert (Hl1 : heap w1 !! p = Some (loadCfg_defaults env o))
    by (rewrite Hh1; apply lookup_insert_eq).
  destruct (init_inv env w1 w2 p _ HO1 Hl1 Hinit)
    as (HB & Hh2 & Hw2 & HO2 & Hc2 & _ & He2 & Hwa2 & Hi2 & Hd2 & Hs2).
  rewrite Hc1 in HB, Hc2.
  assert (Hm2 : zap.Level (zapConfig (logger w2)) = Some m) by (rewrite Hc2; exact Hm).
  destruct (log_fields _ _ w2 w3 m Hm2 Hr Hlog)
    as (Hlg & Hh3 & He3 & Hwa3 & Hi3 & Hd3 & s & Hs & Hw3 & Hopen).
  destruct (loadCfg_defaults_frame env o) as (_ & _ & HD & _). rewrite HD in Hs2.
  assert (Hfc : file_cores (set_logger (set_inited true (logger w3)) w3) = file_cores w2)
    by (apply file_cores_ext; cbn; rewrite ?Hlg; first [reflexivity | assumption]).
  exists zc, m.
  cbn [heap logger Opts zapConfig inited Sugared errWS warnWS infoWS debugWS
       written set_logger set_inited].
  rewrite Hfc, Hlg, Hh3, Hh2, Hh1, Hh0, He3, Hwa3, Hi3, Hd3,
    He2, Hwa2, Hi2, Hd2, Hw3, Hw2, Hw1, Hw0.
  repeat (split; [first [assumption | reflexivity]|]).
  exists s. auto.
Qed.

(** ** Where a record goes *)

Lemma f_file (env : Env) (o : Options) (n : string) : console (f env o n) = false.
Proof. unfold f. destruct (CutType o =? 0); reflexivity. Qed.

Lemma f_open (env : Env) (o : Options) (n : string) :
  CutType o = 0 \/ rotation_ok env -> open_sink (f env o n) = true.
Proof.
  intros H. unfold f. destruct (Z.eqb_spec (CutType o) 0) as [E|E]; [reflexivity|].
  destruct H as [H|H]; [contradiction|]. now rewrite H.
Qed.

Lemma filter_none {A : Type} (P : A -> bool) (l : list A) :
  (forall x, In x l -> P x = false) -> List.filter P l = [].
Proof.
  induction l as [|a l IH]; simpl; intros H; [reflexivity|].
  rewrite (H a) by auto. apply IH. intros x Hx. apply H. auto.
Qed.

Lemma forallb_filter {A : Type} (P Q : A -> bool) (l : list A) :
  forallb P l = true -> forallb P (List.filter Q l) = true.
Proof.
  induction l as [|a l IH]; simpl; [reflexivity|].
  intros H. apply andb_true_iff in H as [Ha Hl].
  destruct (Q a); simpl; [rewrite Ha|]; auto.
Qed.

Lemma file_entries_not_console (P : Written -> bool) (lvl : zapcore.Level)
    (msg : string) (Q : Core -> bool) (cs : list Core) :
  (forall e, P e = true -> console (w_out e) = true) ->
  (forall c, In c cs -> console (core_out c) = false) ->
  List.filter P (map (entry lvl msg) (List.filter Q cs)) = [].
Proof.
  intros HP Hcs. apply filter_none. intros e He.
  apply in_map_iff in He as (c & <- & Hc). apply filter_In in Hc as [Hc _].
  destruct (P (entry lvl msg c)) eqn:E; [|reflexivity].
  apply HP in E. simpl in E. rewrite (Hcs c Hc) in E. discriminate.
Qed.

Lemma is_stdout_console (e : Written) : is_stdout e = true -> console (w_out e) = true.
Proof. unfold is_stdout. destruct (w_out e); simpl; congruence. Qed.

Lemma is_stderr_console (e : Written) : is_stderr e = true -> console (w_out e) = true.
Proof. unfold is_stderr. destruct (w_out e); simpl; congruence. Qed.

Lemma file_cores_sinks (w : World) (c : Core) :
  In c (file_cores w) ->
  core_out c = errWS w \/ core_out c = warnWS w \/
  core_out c = infoWS w \/ core_out c = debugWS w.
Proof.
  unfold file_cores. simpl. intros [<-|[<-|[<-|[<-|[]]]]]; simpl; auto.
Qed.

Lemma console_cores_open : forallb (fun c => open_sink (core_out c)) console_cores = true.
Proof. reflexivity. Qed.

(** The console entries of an error record, for each level [loadCfg] can
    leave: stderr once, stdout once per severity from the minimum level up to
    warn. *)
Lemma console_error_entries (m : zapcore.Level) (msg : string) :
  -1 <= m <= 2 ->
  let evs := map (entry zapcore.ErrorLevel msg)
                 (List.filter (accepts m zapcore.ErrorLevel) console_cores) in
  length (List.filter is_stderr evs) = 1%nat /\
  length (List.filter is_stdout evs) = Z.to_nat (zapcore.ErrorLevel - m).
Proof.
  intros Hr.
  assert (m = -1 \/ m = 0 \/ m = 1 \/ m = 2) as [->|[->|[->| ->]]] by lia;
    split; reflexivity.
Qed.

Lemma new_entries_app (w w' : World) (evs : list Written) :
  written w' = (written w ++ evs)%list -> new_entries w w' = evs.
Proof. intros H. unfold new_entries. rewrite H. apply drop_app_length. Qed.

(** The entries of one log call after a first [InitLogger] in development
    mode: those of the file cores, then those of the console cores. *)
Lemma dev_log_entries (env : Env) (cfg : list (option loc)) (w w' : World)
    (p : loc) (o : Options) (lvl : zapcore.Level) (msg : string) :
  inited (logger w) = false -> installed cfg w = Some p -> heap w !! p = Some o ->
  Development o = true ->
  InitLogger env cfg w = Ok w' ->
  exists m, minimum_level w' = Ok m /\ -1 <= m <= 2 /\
    (forall w'', log lvl msg w' = Ok w'' ->
       new_entries w' w'' =
         (map (entry lvl msg) (List.filter (accepts m lvl) (file_cores w')) ++
          map (entry lvl msg) (List.filter (accepts m lvl) console_cores))%list) /\
    (forall c, In c (file_cores w') -> console (core_out c) = false) /\
    (rotation_ok env -> exists w'', log lvl msg w' = Ok w'').
Proof.
  intros Hi Hp Hh Hdev H.
  destruct (InitLogger_fresh env cfg w w' p o Hi Hp Hh H)
    as (zc & m & Hzc & Hm & Hr & HB & Hheap & HO & Hc & Hin & Hs & He & Hwa & Hinf & Hd & _).
  rewrite Hdev in Hs. cbv iota in Hs. rewrite <- Hc in Hm.
  exists m. split; [unfold minimum_level; now rewrite Hm|]. split; [exact Hr|].
  split; [|split].
  - intros w'' Hlog.
    destruct (log_fields lvl msg w' w'' m Hm Hr Hlog)
      as (_ & _ & _ & _ & _ & _ & s & Hs' & Hw & _).
    assert (Es : s = {| NewTee := (file_cores w' ++ console_cores)%list |})
      by congruence.
    subst s. rewrite (new_entries_app _ _ _ Hw). cbn [NewTee].
    now rewrite List.filter_app, List.map_app.
  - intros c Hc'. apply file_cores_sinks in Hc'.
    rewrite He, Hwa, Hinf, Hd in Hc'.
    destruct Hc' as [->|[->|[->| ->]]]; apply f_file.
  - intros Hrot. eexists. apply (log_open lvl msg w' m _ Hm Hr Hs). cbn [NewTee].
    apply forallb_filter. rewrite forallb_app, console_cores_open, andb_true_r.
    unfold file_cores. cbn [forallb core_out]. rewrite He, Hwa, Hinf, Hd.
    rewrite !f_open by (right; exact Hrot). reflexivity.
Qed.

(** C1, as stated, fails: with the options of [TestZaplog] (development
    mode, level info) an error record is written to stderr once and to the
    stdout console sink twice. *)
Lemma error_record_reaches_stdout :
  Development test_data = true /\
  (w' ← InitLogger env0 [Some 1%nat] test_world;
   w'' ← Logger_Error "err log 0" w';
   Ok (length (List.filter is_stderr (new_entries w' w'')),
       length (List.filter is_stdout (new_entries w' w''))))
  = Ok (1%nat, 2%nat).
Proof. split; vm_compute; reflexivity. Qed.

(** C1, amended: after a first [InitLogger] with [Development] set, an error
    record that is logged is written to the stderr console sink exactly once;
    it is also written to the stdout console sink, once by each of the warn,
    info and debug console cores whose severity is at least the minimum level
    m, that is [ErrorLevel - m] times, so it stays off stdout exactly when the
    minimum level is error.  The call returns whenever no rotation sink is
    nil. *)
Theorem error_record_console_sinks (env : Env) (cfg : list (option loc))
    (w w' : World) (p : loc) (o : Options) (msg : string) :
  inited (logger w) = false -> installed cfg w = Some p -> heap w !! p = Some o ->
  Development o = true ->
  InitLogger env cfg w = Ok w' ->
  exists m, minimum_level w' = Ok m /\
    (forall w'', Logger_Error msg w' = Ok w'' ->
       length (List.filter is_stderr (new_entries w' w'')) = 1%nat /\
       length (List.filter is_stdout (new_entries w' w'')) = Z.to_nat (zapcore.ErrorLevel - m) /\
       (List.filter is_stdout (new_entries w' w'') = [] <-> m = zapcore.ErrorLevel)) /\
    (rotation_ok env -> exists w'', Logger_Error msg w' = Ok w'').
Proof.
  intros Hi Hp Hh Hdev H.
  destruct (dev_log_entries env cfg w w' p o zapcore.ErrorLevel msg Hi Hp Hh Hdev H)
    as (m & Hm & Hr & Hent & Hfile & Htot).
  exists m. split; [exact Hm|]. split; [|exact Htot].
  intros w'' Hlog. rewrite (Hent w'' Hlog). rewrite !List.filter_app.
  rewrite (file_entries_not_console is_stderr) by (exact is_stderr_console || exact Hfile).
  rewrite (file_entries_not_console is_stdout) by (exact is_stdout_console || exact Hfile).
  rewrite !app_nil_l.
  destruct (console_error_entries m msg Hr) as [H1 H2].
  split; [exact H1|]. split; [exact H2|].
  split.
  - intros E. rewrite E in H2. simpl in H2. unfold zapcore.ErrorLevel in *. lia.
  - intros ->. apply length_zero_iff_nil. rewrite H2. reflexivity.
Qed.

Lemma error_record_console_sinks_witness :
  exists m, minimum_level test_inited = Ok m /\
    (forall w'', Logger_Error "err log 0" test_inited = Ok w'' ->
       length (List.filter is_stderr (new_entries test_inited w'')) = 1%nat /\
       length (List.filter is_stdout (new_entries test_inited w'')) =
         Z.to_nat (zapcore.ErrorLevel - m) /\
       (List.filter is_stdout (new_entries test_inited w'') = [] <-> m = zapcore.ErrorLevel)) /\
    (rotation_ok env0 -> exists w'', Logger_Error "err log 0" test_inited = Ok w'').
Proof.
  apply (error_record_console_sinks env0 [Some 1%nat] test_world test_inited 1%nat
           test_data);
    vm_compute; reflexivity.
Defined.

(** ** Level warn silences debug *)

Lemma warn_rejects_debug (c : Core) :
  accepts zapcore.WarnLevel zapcore.DebugLevel c = false.
Proof. unfold accepts. destruct (core_enab c); reflexivity. Qed.

Lemma loadCfg_config_warn (o : Options) (zc : zap.Config) :
  LogLevel o = "warn" -> loadCfg_config o = Ok zc ->
  zap.Level zc = Some zapcore.WarnLevel.
Proof.
  intros HL H. destruct (loadCfg_config_level o) as (zc' & E & L).
  rewrite H in E. injection E as <-. rewrite L, HL. reflexivity.
Qed.

(** C7: after a first [InitLogger] whose options say level "warn", the tee
    holds four cores, or eight in development mode; the filter of every one
    of them rejects the debug level, and a debug call returns having written
    nothing to any sink. *)
Theorem debug_silent_at_warn (env : Env) (cfg : list (option loc))
    (w w' : World) (p : loc) (o : Options) (msg : string) :
  inited (logger w) = false -> installed cfg w = Some p -> heap w !! p = Some o ->
  LogLevel o = "warn" ->
  InitLogger env cfg w = Ok w' ->
  exists s, Sugared (logger w') = Some s /\
    length (NewTee s) = (if Development o then 8 else 4)%nat /\
    (forall c, In c (NewTee s) ->
       Enabled (logger w') (core_enab c) zapcore.DebugLevel = Ok false) /\
    Check (logger w') zapcore.DebugLevel (NewTee s) = Ok [] /\
    exists w'', Logger_Debug msg w' = Ok w'' /\ new_entries w' w'' = [] /\
                written w'' = written w'.
Proof.
  intros Hi Hp Hh HL H.
  destruct (InitLogger_fresh env cfg w w' p o Hi Hp Hh H)
    as (zc & m & Hzc & Hm & Hr & _ & _ & _ & Hc & _ & Hs & _).
  rewrite (loadCfg_config_warn o zc HL Hzc) in Hm. injection Hm as <-.
  assert (Hm : zap.Level (zapConfig (logger w')) = Some zapcore.WarnLevel)
    by (rewrite Hc; exact (loadCfg_config_warn o zc HL Hzc)).
  eexists. split; [exact Hs|]. cbn [NewTee].
  assert (Hnone : forall cs, List.filter (accepts zapcore.WarnLevel zapcore.DebugLevel) cs = [])
    by (intros cs; apply filter_none; intros c _; apply warn_rejects_debug).
  split; [destruct (Development o); reflexivity|].
  split.
  { intros c _. rewrite (Enabled_threshold _ zapcore.WarnLevel) by assumption.
    f_equal. apply warn_rejects_debug. }
  split; [rewrite (Check_filter _ zapcore.WarnLevel) by assumption; now rewrite Hnone|].
  eexists. split.
  - unfold Logger_Debug.
    apply (log_open _ msg w' zapcore.WarnLevel _ Hm Hr Hs). now rewrite Hnone.
  - rewrite Hnone. unfold new_entries. cbn [map add_written written].
    rewrite app_nil_r. split; [apply drop_all | reflexivity].
Qed.

Lemma debug_silent_at_warn_witness :
  exists s, Sugared (logger warn_inited) = Some s /\
    length (NewTee s) = (if Development warn_options then 8 else 4)%nat /\
    (forall c, In c (NewTee s) ->
       Enabled (logger warn_inited) (core_enab c) zapcore.DebugLevel = Ok false) /\
    Check (logger warn_inited) zapcore.DebugLevel (NewTee s) = Ok [] /\
    exists w'', Logger_Debug "debug log 0" warn_inited = Ok w'' /\
                new_entries warn_inited w'' = [] /\
                written w'' = written warn_inited.
Proof.
  apply (debug_silent_at_warn env0 [Some 1%nat] (world_with warn_options) warn_inited
           1%nat warn_options);
    vm_compute; reflexivity.
Defined.

(** ** The initialization guard *)

Lemma bind_ret_l {A B : Type} (a : A) (k : A -> result B) : Ok a ≫= k = k a.
Proof. reflexivity. Qed.

Lemma Enabled_ext (lg lg' : Logger) (p : LevelEnabler) (lvl : zapcore.Level) :
  zapConfig lg' = zapConfig lg -> Enabled lg' p lvl = Enabled lg p lvl.
Proof. intros H. unfold Enabled. now rewrite H. Qed.

Lemma Check_ext (lg lg' : Logger) (lvl : zapcore.Level) (cs : list Core) :
  zapConfig lg' = zapConfig lg -> Check lg' lvl cs = Check lg lvl cs.
Proof.
  intros H. induction cs as [|c cs IH]; simpl; [reflexivity|].
  now rewrite (Enabled_ext lg lg' _ _ H), IH.
Qed.

(** A log call that returns, whatever the logger's state. *)
Lemma log_Ok_iff (lvl : zapcore.Level) (msg : string) (w w' : World) :
  log lvl msg w = Ok w' <->
  exists s cs, Sugared (logger w) = Some s /\
    Check (logger w) lvl (NewTee s) = Ok cs /\
    forallb (fun c => open_sink (core_out c)) cs = true /\
    w' = add_written (map (entry lvl msg) cs) w.
Proof.
  unfold log. split.
  - intros H. destruct (Sugared (logger w)) as [s|]; [|discriminate].
    inv_bind H. inv_bind H. injection H as <-.
    apply Write_inv in H1 as [-> Hopen]. eauto 6.
  - intros (s & cs & -> & -> & Hopen & ->).
    rewrite bind_ret_l, (Write_open _ _ _ Hopen). reflexivity.
Qed.

(** After any [InitLogger] that returns, the flag is set and an info call
    goes through. *)
Lemma InitLogger_inited (env : Env) (cfg : list (option loc)) (w w1 : World) :
  InitLogger env cfg w = Ok w1 ->
  inited (logger w1) = true /\
  exists s cs, Sugared (logger w1) = Some s /\
    Check (logger w1) zapcore.InfoLevel (NewTee s) = Ok cs /\
    forallb (fun c => open_sink (core_out c)) cs = true.
Proof.
  unfold InitLogger, Logger_Info. intros H.
  destruct (inited (logger w)) eqn:Hi.
  - apply log_Ok_iff in H as (s & cs & Hs & Hc & Hopen & ->).
    split; [exact Hi|]. exists s, cs. repeat split; assumption.
  - inv_bind H. inv_bind H. inv_bind H. injection H as <-.
    apply log_Ok_iff in H2 as (s & cs & Hs & Hc & Hopen & ->).
    split; [reflexivity|]. exists s, cs.
    split; [exact Hs|]. split; [|exact Hopen].
    rewrite <- Hc. apply Check_ext. reflexivity.
Qed.

(** C5: after an [InitLogger] that returned, a further [InitLogger], with
    whatever arguments, returns; the logger (its options pointer, its zap
    configuration, its [inited] flag, its cores), the options records and the
    four sinks are the ones the first call left, and all that is written is
    the notice, at info level. *)
Theorem InitLogger_twice (env env' : Env) (cfg cfg' : list (option loc)) (w w1 : World) :
  InitLogger env cfg w = Ok w1 ->
  exists w2, InitLogger env' cfg' w1 = Ok w2 /\
    logger w2 = logger w1 /\ inited (logger w2) = true /\
    heap w2 = heap w1 /\
    errWS w2 = errWS w1 /\ warnWS w2 = warnWS w1 /\
    infoWS w2 = infoWS w1 /\ debugWS w2 = debugWS w1 /\
    exists cs, new_entries w1 w2 =
      map (entry zapcore.InfoLevel "[initLogger] zaplog already initialized") cs.
Proof.
  intros H. destruct (InitLogger_inited env cfg w w1 H) as (Hi & s & cs & Hs & Hc & Hopen).
  eexists. split.
  - unfold InitLogger, Logger_Info. rewrite Hi. apply log_Ok_iff. eauto 6.
  - cbn [logger heap errWS warnWS infoWS debugWS add_written].
    repeat (split; [first [reflexivity | assumption]|]).
    exists cs. apply new_entries_app. reflexivity.
Qed.

Lemma InitLogger_twice_witness :
  exists w2, InitLogger env_build_fails [Some 0%nat] test_inited = Ok w2 /\
    logger w2 = logger test_inited /\ inited (logger w2) = true /\
    heap w2 = heap test_inited /\
    errWS w2 = errWS test_inited /\ warnWS w2 = warnWS test_inited /\
    infoWS w2 = infoWS test_inited /\ debugWS w2 = debugWS test_inited /\
    exists cs, new_entries test_inited w2 =
      map (entry zapcore.InfoLevel "[initLogger] zaplog already initialized") cs.
Proof.
  apply (InitLogger_twice env0 env_build_fails [Some 1%nat] [Some 0%nat] test_world
           test_inited).
  vm_compute. reflexivity.
Defined.

(** A first [InitLogger] returns when [Build] succeeds and no sink is nil. *)
Lemma InitLogger_returns (env : Env) (cfg : list (option loc)) (w : World)
    (p : loc) (o : Options) :
  inited (logger w) = false -> installed cfg w = Some p -> heap w !! p = Some o ->
  build_ok env -> CutType o = 0 \/ rotation_ok env ->
  exists w', InitLogger env cfg w = Ok w'.
Proof.
  intros Hi Hp Hh HB Hsink. unfold InitLogger. rewrite Hi.
  set (w0 := match cfg with
             | c :: _ => set_logger (set_Opts c (logger w)) w
             | [] => w
             end).
  assert (HO0 : Opts (logger w0) = Some p)
    by (subst w0; destruct cfg; simpl in *; assumption).
  assert (Hh0 : heap w0 !! p = Some o)
    by (subst w0; destruct cfg; simpl in *; assumption).
  clearbody w0.
  destruct (loadCfg_Ok env w0 p o HO0 Hh0) as (zc & Hzc & ->).
  destruct (loadCfg_config_range o zc Hzc) as (m & Hm & Hr).
  rewrite bind_ret_l.
  set (o' := loadCfg_defaults env o).
  set (w1 := set_heap _ _).
  assert (HO1 : Opts (logger w1) = Some p) by exact HO0.
  assert (Hh1 : heap w1 !! p = Some o') by (subst w1; simpl; apply lookup_insert_eq).
  rewrite (init_eq env w1 p o' HO1 Hh1). cbv zeta. rewrite HB, bind_ret_l.
  set (w2 := set_logger _ _).
  assert (Hopen : forall Q, forallb (fun c => open_sink (core_out c))
            (List.filter Q (if Development o'
                            then (file_cores (set_syncers (f env o' (ErrorFileName o'))
                                    (f env o' (WarnFileName o')) (f env o' (InfoFileName o'))
                                    (f env o' (DebugFileName o')) w1) ++ console_cores)%list
                            else file_cores (set_syncers (f env o' (ErrorFileName o'))
                                    (f env o' (WarnFileName o')) (f env o' (InfoFileName o'))
                                    (f env o' (DebugFileName o')) w1))) = true).
  { intros Q. apply forallb_filter.
    assert (HC : CutType o' = 0 \/ rotation_ok env).
    { destruct (loadCfg_defaults_frame env o) as (_ & E & _).
      subst o'. rewrite E. exact Hsink. }
    assert (Hf : forallb (fun c => open_sink (core_out c))
                   (file_cores (set_syncers (f env o' (ErrorFileName o'))
                      (f env o' (WarnFileName o')) (f env o' (InfoFileName o'))
                      (f env o' (DebugFileName o')) w1)) = true).
    { unfold file_cores.
      cbn [forallb core_out errWS warnWS infoWS debugWS set_syncers].
      rewrite !f_open by exact HC. reflexivity. }
    destruct (Development o'); [|exact Hf].
    rewrite forallb_app, Hf, console_cores_open. reflexivity. }
  unfold Logger_Info.
  rewrite (log_open zapcore.InfoLevel _ w2 m _ Hm Hr eq_refl (Hopen _)).
  rewrite bind_ret_l. eauto.
Qed.

(** C10: a first [InitLogger(p)] makes the logger hold the caller's pointer
    [p] itself, and when it returns the record behind [p] is the caller's
    record with every empty field among the directory, the application name,
    the four file names, the size, the backup count and the age overwritten
    with its default; no other record changes.  The call returns whenever
    [Build] succeeds and no rotation sink is nil. *)
Theorem InitLogger_writes_back (env : Env) (rest : list (option loc)) (w : World)
    (p : loc) (o : Options) :
  inited (logger w) = false -> heap w !! p = Some o ->
  (forall w', InitLogger env (Some p :: rest) w = Ok w' ->
     Opts (logger w') = Some p /\
     heap w' = <[p := loadCfg_defaults env o]> (heap w) /\
     exists o', heap w' !! p = Some o' /\ resolved env o o') /\
  (build_ok env -> CutType o = 0 \/ rotation_ok env ->
   exists w', InitLogger env (Some p :: rest) w = Ok w').
Proof.
  intros Hi Hh. split.
  - intros w' H.
    destruct (InitLogger_fresh env (Some p :: rest) w w' p o Hi eq_refl Hh H)
      as (zc & m & _ & _ & _ & _ & Hheap & HO & _).
    split; [exact HO|]. split; [exact Hheap|].
    exists (loadCfg_defaults env o). split; [|apply loadCfg_defaults_resolved].
    rewrite Hheap. apply lookup_insert_eq.
  - intros HB Hs.
    exact (InitLogger_returns env (Some p :: rest) w p o Hi eq_refl Hh HB Hs).
Qed.

Lemma InitLogger_writes_back_witness :
  (forall w', InitLogger env0 [Some 1%nat] test_world = Ok w' ->
     Opts (logger w') = Some 1%nat /\
     heap w' = <[1%nat := loadCfg_defaults env0 test_data]> (heap test_world) /\
     exists o', heap w' !! 1%nat = Some o' /\ resolved env0 test_data o') /\
  (build_ok env0 -> CutType test_data = 0 \/ rotation_ok env0 ->
   exists w', InitLogger env0 [Some 1%nat] test_world = Ok w').
Proof.
  apply (InitLogger_writes_back env0 [] test_world 1%nat test_data); reflexivity.
Defined.

(** The record [TestZaplog] passed, read back through the caller's pointer
    after [InitLogger]: the four file names have been filled in. *)
Example test_data_after_InitLogger :
  heap test_inited !! 1%nat =
    Some {| LogLevel := "info"; LogFileDir := "../logs"; AppName := "logtool";
            ErrorFileName := "error.log"; WarnFileName := "warn.log";
            InfoFileName := "info.log"; DebugFileName := "debug.log";
            MaxSize := 30; MaxBackups := 7; MaxAge := 7; CutType := 1;
            Development := true; Config := zap.zero |}.
Proof. vm_compute. reflexivity. Qed.

(** ** Failures while the sinks and the logger are built *)

Lemma f_size_based (env : Env) (o : Options) (n : string) :
  CutType o = 0 -> exists l, f env o n = LumberjackWS l.
Proof. intros H. unfold f. rewrite H. simpl. eauto. Qed.

Lemma f_time_based (env : Env) (o : Options) (n : string) :
  CutType o <> 0 ->
  f env o n = RotateWS (match rotatelogs_New_err env (rotate_args env o n) with
                        | None => Some (rotate_args env o n)
                        | Some _ => None
                        end).
Proof. intros H. unfold f. apply Z.eqb_neq in H. now rewrite H. Qed.

(** Size-based rotation, [Build] fails: [init] panics. *)
Example init_panics_when_Build_fails :
  CutType dev_options = 0 /\
  (loadCfg env_build_fails (world_with dev_options) ≫= init env_build_fails)
  = Panic "zap: build failed".
Proof. split; vm_compute; reflexivity. Qed.

(** Time-based rotation, every [rotatelogs.New] fails: [init] returns and
    the four sinks are nil. *)
Example init_returns_when_rotatelogs_fails :
  CutType error_timed_options <> 0 /\
  (w ← loadCfg env_rotate_fails (world_with error_timed_options);
   w' ← init env_rotate_fails w;
   Ok [errWS w'; warnWS w'; infoWS w'; debugWS w'])
  = Ok [RotateWS None; RotateWS None; RotateWS None; RotateWS None].
Proof. split; [discriminate | vm_compute; reflexivity]. Qed.

(** With those nil sinks the first entry a file core accepts is written
    through nil: at level info the closing notice of [InitLogger] panics, at
    level error it is filtered out and [InitLogger] returns. *)
Example InitLogger_with_nil_sinks :
  InitLogger env_rotate_fails [Some 1%nat] test_world = Panic nil_deref /\
  (w' ← InitLogger env_rotate_fails [Some 1%nat] (world_with error_timed_options);
   Ok (inited (logger w'), new_entries (world_with error_timed_options) w'))
  = Ok (true, []).
Proof. split; vm_compute; reflexivity. Qed.

(** ** The time-based sink *)

Lemma rotate_args_rotation_time (env : Env) (o : Options) (n : string) :
  rotatelogs.WithRotationTime (rotate_args env o n) = 60 * time.Second.
Proof. reflexivity. Qed.

(** The retention is [MaxAge] days, as long as that many days fit in an
    int64 count of nanoseconds. *)
Lemma rotate_args_max_age (env : Env) (o : Options) (n : string) :
  0 <= MaxAge o <= 106751 ->
  rotatelogs.WithMaxAge (rotate_args env o n) = MaxAge o * (24 * time.Hour).
Proof.
  intros H. unfold rotate_args, rotatelogs.WithMaxAge, time.mul, time.of_int, time.wrap64,
    time.Hour, time.Minute, time.Second.
  rewrite (Z.mod_small (MaxAge o + 2 ^ 63)) by lia.
  replace (MaxAge o + 2 ^ 63 - 2 ^ 63) with (MaxAge o) by lia.
  rewrite (Z.mod_small (MaxAge o * 24 + 2 ^ 63)) by lia.
  replace (MaxAge o * 24 + 2 ^ 63 - 2 ^ 63) with (MaxAge o * 24) by lia.
  rewrite Z.mod_small by lia. lia.
Qed.

(** The options of [TestZaplog] ([CutType = 1]): the value handed to
    rotatelogs for the error file. *)
Example test_data_rotate_args :
  f env0 test_data "error.log" =
  RotateWS (Some {| rotatelogs.pattern := "../logs/logtool-error.log.%Y_%m%d_%H";
                    rotatelogs.WithLinkName := "../logs/logtool-error.log";
                    rotatelogs.WithMaxAge := 7 * (24 * time.Hour);
                    rotatelogs.WithRotationTime := time.Minute |}).
Proof. reflexivity. Qed.

(** * Further properties of the package *)

(** ** loadCfg: what it leaves behind *)

Lemma append_nonempty_r (a b : string) : b <> "" -> a +:+ b <> "".
Proof. intros Hb. destruct a; simpl; [exact Hb | discriminate]. Qed.

Lemma default_dir_nonempty (env : Env) :
  Abs_dot env +:+ sp env +:+ "logs" +:+ sp env <> "".
Proof. do 2 apply append_nonempty_r. discriminate. Qed.

Lemma if_empty_nonempty (d x : string) :
  d <> "" -> (if String.eqb x "" then d else x) <> "".
Proof. intros Hd. destruct (String.eqb_spec x ""); assumption. Qed.

Lemma if_zero_nonzero (d x : Z) :
  d <> 0 -> (if (x =? 0)%Z then d else x) <> 0.
Proof. intros Hd. destruct (Z.eqb_spec x 0); assumption. Qed.

(** X1: after [loadCfg] the record the logger points to has no empty
    directory, application name or file name and no zero size, backup count
    or age. *)
Theorem loadCfg_no_empty_field (env : Env) (w : World) (p : loc) (o : Options) :
  Opts (logger w) = Some p -> heap w !! p = Some o ->
  exists w' o',
    loadCfg env w = Ok w' /\ heap w' !! p = Some o' /\
    LogFileDir o' <> "" /\ AppName o' <> "" /\
    ErrorFileName o' <> "" /\ WarnFileName o' <> "" /\
    InfoFileName o' <> "" /\ DebugFileName o' <> "" /\
    MaxSize o' <> 0 /\ MaxBackups o' <> 0 /\ MaxAge o' <> 0.
Proof.
  intros HO Hh. destruct (loadCfg_Ok env w p o HO Hh) as (zc & _ & E).
  eexists. exists (loadCfg_defaults env o). split; [exact E|].
  split; [simpl; apply lookup_insert_eq|].
  rewrite loadCfg_defaults_fields. simpl.
  repeat split;
    first [ apply if_empty_nonempty; first [apply default_dir_nonempty | discriminate]
          | apply if_zero_nonzero; discriminate ].
Qed.

Lemma loadCfg_no_empty_field_witness :
  exists w' o',
    loadCfg env0 (world_with dev_options) = Ok w' /\ heap w' !! 1%nat = Some o' /\
    LogFileDir o' <> "" /\ AppName o' <> "" /\
    ErrorFileName o' <> "" /\ WarnFileName o' <> "" /\
    InfoFileName o' <> "" /\ DebugFileName o' <> "" /\
    MaxSize o' <> 0 /\ MaxBackups o' <> 0 /\ MaxAge o' <> 0.
Proof.
  apply (loadCfg_no_empty_field env0 (world_with dev_options) 1%nat dev_options);
    reflexivity.
Defined.

Lemma if_empty_idem (d x : string) :
  d <> "" ->
  (if String.eqb (if String.eqb x "" then d else x) ""
   then d else (if String.eqb x "" then d else x)) =
  (if String.eqb x "" then d else x).
Proof.
  intros Hd. destruct (String.eqb_spec x "") as [E|E].
  - apply String.eqb_neq in Hd. now rewrite Hd.
  - apply String.eqb_neq in E. now rewrite E.
Qed.

Lemma if_zero_idem (d x : Z) :
  d <> 0 ->
  (if ((if (x =? 0)%Z then d else x) =? 0)%Z
   then d else (if (x =? 0)%Z then d else x)) =
  (if (x =? 0)%Z then d else x).
Proof.
  intros Hd. destruct (Z.eqb_spec x 0) as [E|E].
  - apply Z.eqb_neq in Hd. now rewrite Hd.
  - apply Z.eqb_neq in E. now rewrite E.
Qed.

Lemma loadCfg_defaults_idem (env : Env) (o : Options) :
  loadCfg_defaults env (loadCfg_defaults env o) = loadCfg_defaults env o.
Proof.
  rewrite (loadCfg_defaults_fields env (loadCfg_defaults env o)).
  rewrite (loadCfg_defaults_fields env o). cbn [LogLevel LogFileDir AppName
    ErrorFileName WarnFileName InfoFileName DebugFileName MaxSize MaxBackups
    MaxAge CutType Development Config].
  rewrite !if_empty_idem by first [apply default_dir_nonempty | discriminate].
  rewrite !if_zero_idem by discriminate. reflexivity.
Qed.

Lemma loadCfg_config_frame (o o' : Options) :
  LogLevel o' = LogLevel o -> Development o' = Development o -> Config o' = Config o ->
  loadCfg_config o' = loadCfg_config o.
Proof. intros HL HD HC. unfold loadCfg_config. now rewrite HL, HD, HC. Qed.

(** X2: [loadCfg] is idempotent: run on the state it returned, it returns
    that state again. *)
Theorem loadCfg_idempotent (env : Env) (w w' : World) :
  loadCfg env w = Ok w' -> loadCfg env w' = Ok w'.
Proof.
  intros H. unfold loadCfg in H.
  destruct (Opts (logger w)) as [p|] eqn:HO; [|discriminate].
  simpl in H. destruct (heap w !! p) as [o|] eqn:Hh; [|discriminate].
  pose proof (loadCfg_Ok env w p o HO Hh) as (zc & Hzc & E).
  unfold loadCfg in E. rewrite HO in E. simpl in E. rewrite Hh in E.
  rewrite E in H. injection H as <-.
  destruct (loadCfg_defaults_frame env o) as (HL & _ & HD & HC).
  pose proof (loadCfg_Ok env
    (set_heap (<[p:=loadCfg_defaults env o]> (heap w))
       (set_logger (set_zapConfig zc (logger w)) w)) p (loadCfg_defaults env o))
    as (zc' & Hzc' & E').
  { exact HO. }
  { simpl. apply lookup_insert_eq. }
  rewrite (loadCfg_config_frame o _ HL HD HC), Hzc in Hzc'. injection Hzc' as <-.
  rewrite E', loadCfg_defaults_idem.
  unfold set_heap, set_logger, set_zapConfig. simpl.
  now rewrite insert_insert_eq.
Qed.

Lemma loadCfg_idempotent_witness :
  loadCfg env0 (after_loadCfg env0 (world_with test_data)) =
  Ok (after_loadCfg env0 (world_with test_data)).
Proof.
  apply (loadCfg_idempotent env0 (world_with test_data)). reflexivity.
Defined.

(** X3: the zap configuration [loadCfg] installs takes nothing from the
    [zap.Config] embedded in the options but whether its two path lists are
    empty: the error output paths are always stderr, the output paths are
    stdout when the caller gave none and stderr (the profile's own) when the
    caller gave some, and the encoding and the time encoder follow the
    development flag alone. *)
Theorem loadCfg_ignores_embedded_config (env : Env) (w : World) (p : loc) (o : Options) :
  Opts (logger w) = Some p -> heap w !! p = Some o ->
  exists w', loadCfg env w = Ok w' /\
    zap.ErrorOutputPaths (zapConfig (logger w')) = ["stderr"] /\
    zap.OutputPaths (zapConfig (logger w')) =
      match zap.OutputPaths (Config o) with
      | [] => ["stdout"]
      | _ => ["stderr"]
      end /\
    zap.Development (zapConfig (logger w')) = Development o /\
    zap.Encoding (zapConfig (logger w')) = (if Development o then "console" else "json") /\
    zapcore.EncodeTime (zap.EncoderConfig (zapConfig (logger w'))) =
      Some (if Development o then zapcore.timeEncoder else zapcore.timeUnixNano).
Proof.
  intros HO Hh. destruct (loadCfg_Ok env w p o HO Hh) as (zc & Hzc & E).
  eexists. split; [exact E|]. cbn [logger set_heap set_logger zapConfig set_zapConfig].
  unfold loadCfg_config in Hzc.
  destruct (Development o), (zap.OutputPaths (Config o)), (zap.ErrorOutputPaths (Config o));
    destruct (String.eqb (LogLevel o) "debug");
    destruct (String.eqb (LogLevel o) "info");
    destruct (String.eqb (LogLevel o) "warn");
    destruct (String.eqb (LogLevel o) "error");
    simpl in Hzc; injection Hzc as <-; repeat split.
Qed.

Lemma loadCfg_ignores_embedded_config_witness :
  exists w', loadCfg env0 (world_with paths_options) = Ok w' /\
    zap.ErrorOutputPaths (zapConfig (logger w')) = ["stderr"] /\
    zap.OutputPaths (zapConfig (logger w')) =
      match zap.OutputPaths (Config paths_options) with
      | [] => ["stdout"]
      | _ => ["stderr"]
      end /\
    zap.Development (zapConfig (logger w')) = Development paths_options /\
    zap.Encoding (zapConfig (logger w')) =
      (if Development paths_options then "console" else "json") /\
    zapcore.EncodeTime (zap.EncoderConfig (zapConfig (logger w'))) =
      Some (if Development paths_options then zapcore.timeEncoder else zapcore.timeUnixNano).
Proof.
  apply (loadCfg_ignores_embedded_config env0 (world_with paths_options) 1%nat
           paths_options);
    reflexivity.
Defined.

(** ** The tee: which cores a record reaches *)

(** The entries of one log call after a first [InitLogger]. *)
Lemma log_entries_after_init (env : Env) (cfg : list (option loc)) (w w' : World)
    (p : loc) (o : Options) :
  inited (logger w) = false -> installed cfg w = Some p -> heap w !! p = Some o ->
  InitLogger env cfg w = Ok w' ->
  exists m, minimum_level w' = Ok m /\ -1 <= m <= 2 /\
    zap.Level (zapConfig (logger w')) = Some m /\
    Sugared (logger w') =
      Some {| NewTee := if Development o
                        then (file_cores w' ++ console_cores)%list
                        else file_cores w' |} /\
    (forall c, In c (file_cores w') -> console (core_out c) = false) /\
    (forall S, file_sink S w' =
               f env (loadCfg_defaults env o) (file_name S (loadCfg_defaults env o))) /\
    (forall lvl msg w'', log lvl msg w' = Ok w'' ->
       new_entries w' w'' =
         map (entry lvl msg)
             (List.filter (accepts m lvl)
                (if Development o
                 then (file_cores w' ++ console_cores)%list
                 else file_cores w'))).
Proof.
  intros Hi Hp Hh H.
  destruct (InitLogger_fresh env cfg w w' p o Hi Hp Hh H)
    as (zc & m & Hzc & Hm & Hr & HB & Hheap & HO & Hc & Hin & Hs & He & Hwa & Hinf & Hd & _).
  rewrite <- Hc in Hm.
  exists m. split; [unfold minimum_level; now rewrite Hm|].
  split; [exact Hr|]. split; [exact Hm|]. split; [exact Hs|].
  split; [|split].
  - intros c Hc'. apply file_cores_sinks in Hc'.
    rewrite He, Hwa, Hinf, Hd in Hc'.
    destruct Hc' as [->|[->|[->| ->]]]; apply f_file.
  - intros []; assumption.
  - intros lvl msg w'' Hlog.
    destruct (log_fields lvl msg w' w'' m Hm Hr Hlog)
      as (_ & _ & _ & _ & _ & _ & s & Hs' & Hw & _).
    assert (Es : s = {| NewTee := if Development o
                                  then (file_cores w' ++ console_cores)%list
                                  else file_cores w' |}) by congruence.
    subst s. now rewrite (new_entries_app _ _ _ Hw).
Qed.

Lemma accepts_below (m lvl : zapcore.Level) (c : Core) :
  lvl < m -> accepts m lvl c = false.
Proof.
  intros H. unfold accepts. apply andb_false_iff.
  destruct (Z.leb_spec (severity (core_enab c)) lvl); [right|left; reflexivity].
  apply Z.leb_gt. lia.
Qed.

(** X4: after a first [InitLogger], a log call at a level below the minimum
    level returns, whatever the state of the sinks, and writes nothing. *)
Theorem below_minimum_is_silent (env : Env) (cfg : list (option loc)) (w w' : World)
    (p : loc) (o : Options) (lvl : zapcore.Level) (msg : string) :
  inited (logger w) = false -> installed cfg w = Some p -> heap w !! p = Some o ->
  InitLogger env cfg w = Ok w' ->
  exists m, minimum_level w' = Ok m /\
    (lvl < m -> exists w'', log lvl msg w' = Ok w'' /\ new_entries w' w'' = [] /\
                            written w'' = written w').
Proof.
  intros Hi Hp Hh H.
  destruct (log_entries_after_init env cfg w w' p o Hi Hp Hh H)
    as (m & Hmin & Hr & Hm & Hs & _ & _ & _).
  exists m. split; [exact Hmin|]. intros Hlt.
  assert (Hnone : forall cs, List.filter (accepts m lvl) cs = [])
    by (intros cs; apply filter_none; intros c _; now apply accepts_below).
  eexists. split.
  - apply (log_open lvl msg w' m _ Hm Hr Hs). now rewrite Hnone.
  - rewrite Hnone. unfold new_entries. cbn [map add_written written].
    rewrite app_nil_r. split; [apply drop_all | reflexivity].
Qed.

Lemma below_minimum_is_silent_witness :
  exists m, minimum_level test_inited = Ok m /\
    (zapcore.DebugLevel < m ->
     exists w'', log zapcore.DebugLevel "debug log 0" test_inited = Ok w'' /\
                 new_entries test_inited w'' = [] /\
                 written w'' = written test_inited).
Proof.
  apply (below_minimum_is_silent env0 [Some 1%nat] test_world test_inited 1%nat test_data);
    vm_compute; reflexivity.
Defined.

Lemma severity_range (S : LevelEnabler) : -1 <= severity S <= 2.
Proof.
  destruct S; unfold severity, zapcore.ErrorLevel, zapcore.WarnLevel,
    zapcore.InfoLevel, zapcore.DebugLevel; lia.
Qed.

Lemma file_cores_count (w : World) (m lvl : zapcore.Level) :
  -1 <= m <= 2 -> -1 <= lvl <= 2 ->
  length (List.filter (accepts m lvl) (file_cores w)) = Z.to_nat (lvl - m + 1).
Proof.
  intros Hm Hl.
  assert (m = -1 \/ m = 0 \/ m = 1 \/ m = 2) as [->|[->|[->| ->]]] by lia;
    assert (lvl = -1 \/ lvl = 0 \/ lvl = 1 \/ lvl = 2) as [->|[->|[->| ->]]] by lia;
    reflexivity.
Qed.

Lemma console_cores_count (m lvl : zapcore.Level) :
  -1 <= m <= 2 -> -1 <= lvl <= 2 ->
  length (List.filter (accepts m lvl) console_cores) = Z.to_nat (lvl - m + 1).
Proof.
  intros Hm Hl.
  assert (m = -1 \/ m = 0 \/ m = 1 \/ m = 2) as [->|[->|[->| ->]]] by lia;
    assert (lvl = -1 \/ lvl = 0 \/ lvl = 1 \/ lvl = 2) as [->|[->|[->| ->]]] by lia;
    reflexivity.
Qed.

Lemma filter_console_entries (lvl : zapcore.Level) (msg : string) (b : bool)
    (cs : list Core) :
  (forall c, In c cs -> console (core_out c) = b) ->
  List.filter (fun e => console (w_out e)) (map (entry lvl msg) cs) =
  if b then map (entry lvl msg) cs else [].
Proof.
  intros H. induction cs as [|c cs IH]; simpl; [now destruct b|].
  rewrite (H c) by (left; reflexivity).
  rewrite IH by (intros c' Hc'; apply H; right; exact Hc').
  now destruct b.
Qed.

Lemma console_cores_console (c : Core) :
  In c console_cores -> console (core_out c) = true.
Proof. unfold console_cores. simpl. intros [<-|[<-|[<-|[<-|[]]]]]; reflexivity. Qed.

(** X5: after a first [InitLogger] with minimum level m, a log call at a
    severity L (debug to error) that returns writes the record to exactly
    L - m + 1 file sinks (none when L < m), one per severity from m up to L;
    in development mode it writes it as many times again to the console, and
    otherwise not at all. *)
Theorem fan_out_count (env : Env) (cfg : list (option loc)) (w w' : World)
    (p : loc) (o : Options) (S : LevelEnabler) (msg : string) :
  inited (logger w) = false -> installed cfg w = Some p -> heap w !! p = Some o ->
  InitLogger env cfg w = Ok w' ->
  exists m, minimum_level w' = Ok m /\
    forall w'', run (CallLog S msg) w' = Ok w'' ->
      length (List.filter (fun e => negb (console (w_out e))) (new_entries w' w''))
        = Z.to_nat (severity S - m + 1) /\
      length (List.filter (fun e => console (w_out e)) (new_entries w' w''))
        = (if Development o then Z.to_nat (severity S - m + 1) else 0%nat).
Proof.
  intros Hi Hp Hh H.
  destruct (log_entries_after_init env cfg w w' p o Hi Hp Hh H)
    as (m & Hmin & Hr & Hm & Hs & Hfile & _ & Hent).
  exists m. split; [exact Hmin|]. intros w'' Hlog. cbn [run] in Hlog.
  rewrite (Hent _ _ _ Hlog).
  assert (HS : -1 <= severity S <= 2) by apply severity_range.
  assert (Hf : forall c, In c (List.filter (accepts m (severity S)) (file_cores w')) ->
                         console (core_out c) = false)
    by (intros c Hc; apply filter_In in Hc as [Hc _]; now apply Hfile).
  assert (Hc : forall c, In c (List.filter (accepts m (severity S)) console_cores) ->
                         console (core_out c) = true)
    by (intros c Hc; apply filter_In in Hc as [Hc _]; now apply console_cores_console).
  assert (Hneg : forall b cs, (forall c, In c cs -> console (core_out c) = b) ->
            List.filter (fun e => negb (console (w_out e))) (map (entry (severity S) msg) cs)
            = if b then [] else map (entry (severity S) msg) cs).
  { intros b cs Hcs. induction cs as [|c cs IH]; simpl; [now destruct b|].
    rewrite (Hcs c) by (left; reflexivity).
    rewrite IH by (intros c' Hc'; apply Hcs; right; exact Hc').
    now destruct b. }
  destruct (Development o).
  - rewrite List.filter_app, List.map_app, !List.filter_app.
    rewrite (Hneg false _ Hf), (Hneg true _ Hc).
    rewrite (filter_console_entries _ _ false _ Hf), (filter_console_entries _ _ true _ Hc).
    rewrite app_nil_r, app_nil_l, !length_map.
    now rewrite file_cores_count, console_cores_count.
  - rewrite (Hneg false _ Hf), (filter_console_entries _ _ false _ Hf).
    now rewrite length_map, file_cores_count.
Qed.

Lemma fan_out_count_witness :
  exists m, minimum_level test_inited = Ok m /\
    forall w'', run (CallLog warnPriority "warn log 0") test_inited = Ok w'' ->
      length (List.filter (fun e => negb (console (w_out e))) (new_entries test_inited w''))
        = Z.to_nat (severity warnPriority - m + 1) /\
      length (List.filter (fun e => console (w_out e)) (new_entries test_inited w''))
        = (if Development test_data then Z.to_nat (severity warnPriority - m + 1) else 0%nat).
Proof.
  apply (fan_out_count env0 [Some 1%nat] test_world test_inited 1%nat test_data);
    vm_compute; reflexivity.
Defined.

Lemma file_core_in (w : World) (S : LevelEnabler) :
  In (NewCore (zapcore.NewJSONEncoder (zap.EncoderConfig (zapConfig (logger w))))
              (file_sink S w) S)
     (file_cores w).
Proof. unfold file_cores. destruct S; simpl; auto. Qed.

(** X6: after a first [InitLogger] with minimum level m, a log call at a
    severity S with m <= S that returns has written the record, JSON-encoded,
    to the file sink of that very severity, and that sink is the one built
    for the resolved file name of S. *)
Theorem own_file_delivery (env : Env) (cfg : list (option loc)) (w w' : World)
    (p : loc) (o : Options) (S : LevelEnabler) (msg : string) :
  inited (logger w) = false -> installed cfg w = Some p -> heap w !! p = Some o ->
  InitLogger env cfg w = Ok w' ->
  exists m, minimum_level w' = Ok m /\
    file_sink S w' = f env (loadCfg_defaults env o) (file_name S (loadCfg_defaults env o)) /\
    forall w'', m <= severity S -> run (CallLog S msg) w' = Ok w'' ->
      In {| w_out := file_sink S w';
            w_enc := zapcore.NewJSONEncoder (zap.EncoderConfig (zapConfig (logger w')));
            w_level := severity S;
            w_msg := msg |}
         (new_entries w' w'').
Proof.
  intros Hi Hp Hh H.
  destruct (log_entries_after_init env cfg w w' p o Hi Hp Hh H)
    as (m & Hmin & Hr & Hm & Hs & _ & Hsink & Hent).
  exists m. split; [exact Hmin|]. split; [apply Hsink|].
  intros w'' Hle Hlog. cbn [run] in Hlog. rewrite (Hent _ _ _ Hlog).
  apply in_map_iff.
  exists (NewCore (zapcore.NewJSONEncoder (zap.EncoderConfig (zapConfig (logger w'))))
                  (file_sink S w') S).
  split; [reflexivity|]. apply filter_In. split.
  - destruct (Development o); [apply in_or_app; left|]; apply file_core_in.
  - unfold accepts. cbn [core_enab]. apply andb_true_iff. split; apply Z.leb_le; lia.
Qed.

Lemma own_file_delivery_witness :
  exists m, minimum_level test_inited = Ok m /\
    file_sink errPriority test_inited =
      f env0 (loadCfg_defaults env0 test_data)
        (file_name errPriority (loadCfg_defaults env0 test_data)) /\
    forall w'', m <= severity errPriority ->
      run (CallLog errPriority "err log 0") test_inited = Ok w'' ->
      In {| w_out := file_sink errPriority test_inited;
            w_enc := zapcore.NewJSONEncoder
                       (zap.EncoderConfig (zapConfig (logger test_inited)));
            w_level := severity errPriority;
            w_msg := "err log 0" |}
         (new_entries test_inited w'').
Proof.
  apply (own_file_delivery env0 [Some 1%nat] test_world test_inited 1%nat test_data);
    vm_compute; reflexivity.
Defined.

(** ** When InitLogger returns *)

Lemma notice_sinks_open (w : World) (m : zapcore.Level) (dev : bool) :
  forallb (fun c => open_sink (core_out c))
    (List.filter (accepts m zapcore.InfoLevel)
       (if dev then (file_cores w ++ console_cores)%list else file_cores w)) = true <->
  (m <= zapcore.InfoLevel -> open_sink (infoWS w) = true) /\
  (m <= zapcore.DebugLevel -> open_sink (debugWS w) = true).
Proof.
  rewrite forallb_forall. split.
  - intros H. split; intros Hm.
    + apply (H (NewCore (zapcore.NewJSONEncoder (zap.EncoderConfig (zapConfig (logger w))))
                        (infoWS w) infoPriority)).
      apply filter_In. split.
      * destruct dev; [apply in_or_app; left|]; apply (file_core_in w infoPriority).
      * unfold accepts. cbn [core_enab severity]. apply andb_true_iff.
        split; apply Z.leb_le; [reflexivity | exact Hm].
    + apply (H (NewCore (zapcore.NewJSONEncoder (zap.EncoderConfig (zapConfig (logger w))))
                        (debugWS w) debugPriority)).
      apply filter_In. split.
      * destruct dev; [apply in_or_app; left|]; apply (file_core_in w debugPriority).
      * unfold accepts. cbn [core_enab severity]. apply andb_true_iff.
        split; apply Z.leb_le; [discriminate | exact Hm].
  - intros [Hinfo Hdebug] c Hc. apply filter_In in Hc as [Hin Hacc].
    assert (Hfile : In c (file_cores w) -> open_sink (core_out c) = true).
    { unfold file_cores. simpl. unfold accepts in Hacc.
      intros [<-|[<-|[<-|[<-|[]]]]]; cbn [core_enab core_out severity] in *;
        apply andb_true_iff in Hacc as [H1 H2]; apply Z.leb_le in H1, H2;
        first [ discriminate H1 | now apply Hinfo | now apply Hdebug
              | exfalso; unfold zapcore.ErrorLevel, zapcore.WarnLevel,
                  zapcore.InfoLevel in *; lia ]. }
    destruct dev; [|now apply Hfile].
    apply in_app_or in Hin as [Hin|Hin]; [now apply Hfile|].
    pose proof console_cores_open as Hopen. rewrite forallb_forall in Hopen.
    now apply Hopen.
Qed.

Lemma InitLogger_Ok_deref (env : Env) (cfg : list (option loc)) (w w' : World) :
  inited (logger w) = false -> InitLogger env cfg w = Ok w' ->
  exists p o, installed cfg w = Some p /\ heap w !! p = Some o.
Proof.
  intros Hi H. unfold InitLogger in H. rewrite Hi in H.
  inv_bind H. clear H. unfold loadCfg in H0. inv_bind H0. clear H0.
  unfold deref in H.
  assert (E : forall (w0 : World),
             w0 = match cfg with
                  | c :: _ => set_logger (set_Opts c (logger w)) w
                  | [] => w
                  end ->
             Opts (logger w0) = installed cfg w /\ heap w0 = heap w)
    by (intros w0 ->; destruct cfg; split; reflexivity).
  destruct (E _ eq_refl) as [EO Eh]. rewrite EO, Eh in H.
  destruct (installed cfg w) as [p|]; [|discriminate].
  destruct (heap w !! p) as [o|] eqn:Hh; [|discriminate]. exists p, o. auto.
Qed.

(** X7: a first [InitLogger] returns exactly when the options pointer it
    installs is not nil, [Build] succeeds on the configuration [loadCfg] made,
    and the file sinks its closing info-level notice is written to are not
    nil: the info sink when the minimum level is info or debug, the debug
    sink when it is debug.  In every other case it panics. *)
Theorem InitLogger_returns_iff (env : Env) (cfg : list (option loc)) (w : World) :
  inited (logger w) = false ->
  ((exists w', InitLogger env cfg w = Ok w') <->
   exists p o zc m,
     installed cfg w = Some p /\ heap w !! p = Some o /\
     loadCfg_config o = Ok zc /\ zap.Level zc = Some m /\
     Build_err env zc = None /\
     (m <= zapcore.InfoLevel ->
      open_sink (f env (loadCfg_defaults env o)
                   (InfoFileName (loadCfg_defaults env o))) = true) /\
     (m <= zapcore.DebugLevel ->
      open_sink (f env (loadCfg_defaults env o)
                   (DebugFileName (loadCfg_defaults env o))) = true)).
Proof.
  intros Hi. split.
  - intros (w' & H).
    destruct (InitLogger_Ok_deref env cfg w w' Hi H) as (p & o & Hp & Hh).
    destruct (InitLogger_fresh env cfg w w' p o Hi Hp Hh H)
      as (zc & m & Hzc & Hm & Hr & HB & _ & _ & _ & _ & Hs & _ & _ & Hinf & Hd
          & s & Hs' & _ & Hopen).
    assert (Es : s = {| NewTee := if Development o
                                  then (file_cores w' ++ console_cores)%list
                                  else file_cores w' |}) by congruence.
    subst s. cbn [NewTee] in Hopen. apply notice_sinks_open in Hopen.
    rewrite Hinf, Hd in Hopen.
    exists p, o, zc, m. repeat (split; [assumption|]). exact Hopen.
  - intros (p & o & zc & m & Hp & Hh & Hzc & Hm & HB & Hinfo & Hdebug).
    unfold InitLogger. rewrite Hi.
    set (w0 := match cfg with
               | c :: _ => set_logger (set_Opts c (logger w)) w
               | [] => w
               end).
    assert (HO0 : Opts (logger w0) = Some p)
      by (subst w0; destruct cfg; simpl in *; assumption).
    assert (Hh0 : heap w0 !! p = Some o)
      by (subst w0; destruct cfg; simpl in *; assumption).
    clearbody w0.
    destruct (loadCfg_Ok env w0 p o HO0 Hh0) as (zc' & Hzc' & ->).
    rewrite Hzc in Hzc'. injection Hzc' as <-.
    destruct (loadCfg_config_range o zc Hzc) as (m' & Hm' & Hr).
    rewrite Hm in Hm'. injection Hm' as <-.
    rewrite bind_ret_l.
    set (o' := loadCfg_defaults env o) in *.
    set (w1 := set_heap _ _).
    assert (HO1 : Opts (logger w1) = Some p) by exact HO0.
    assert (Hh1 : heap w1 !! p = Some o') by (subst w1; simpl; apply lookup_insert_eq).
    rewrite (init_eq env w1 p o' HO1 Hh1). cbv zeta.
    change (zapConfig (logger w1)) with zc. rewrite HB, bind_ret_l.
    set (w2 := set_logger _ _).
    unfold Logger_Info.
    rewrite (log_open zapcore.InfoLevel _ w2 m _ Hm Hr eq_refl).
    + rewrite bind_ret_l. eauto.
    + apply notice_sinks_open. split; assumption.
Qed.

(** ** The logger after initialization *)

Lemma run_frozen (c : Call) (w w' : World) :
  inited (logger w) = true -> run c w = Ok w' ->
  logger w' = logger w /\ errWS w' = errWS w /\ warnWS w' = warnWS w /\
  infoWS w' = infoWS w /\ debugWS w' = debugWS w.
Proof.
  intros Hi H. destruct c as [env cfg|S msg|p o]; cbn [run] in H.
  - unfold InitLogger, Logger_Info in H. rewrite Hi in H.
    apply log_Ok_iff in H as (s & cs & _ & _ & _ & ->). repeat split.
  - apply log_Ok_iff in H as (s & cs & _ & _ & _ & ->). repeat split.
  - injection H as <-. repeat split.
Qed.

(** X8: once [inited] is set, no sequence of calls (further [InitLogger]
    calls with any arguments, log calls, assignments by the caller to its
    [Options] records) that returns changes the logger [GetLogger] gives (its
    options pointer, zap configuration, cores and flag) or the four file
    sinks. *)
Theorem initialized_is_frozen (cs : list Call) (w w' : World) :
  inited (logger w) = true -> run_all cs w = Ok w' ->
  GetLogger w' = GetLogger w /\ inited (GetLogger w') = true /\
  errWS w' = errWS w /\ warnWS w' = warnWS w /\
  infoWS w' = infoWS w /\ debugWS w' = debugWS w.
Proof.
  unfold GetLogger. revert w. induction cs as [|c cs IH]; intros w Hi H.
  - injection H as <-. repeat split. exact Hi.
  - cbn [run_all] in H. inv_bind H.
    destruct (run_frozen c w x Hi H0) as (Hl & He & Hw & Hinf & Hd).
    assert (Hi' : inited (logger x) = true) by (rewrite Hl; exact Hi).
    destruct (IH x Hi' H) as (Hl' & Hin' & He' & Hw' & Hinf' & Hd').
    rewrite Hl', He', Hw', Hinf', Hd', Hl, He, Hw, Hinf, Hd.
    repeat split. exact Hi.
Qed.

Lemma initialized_is_frozen_witness :
  GetLogger late_final = GetLogger test_inited /\ inited (GetLogger late_final) = true /\
  errWS late_final = errWS test_inited /\ warnWS late_final = warnWS test_inited /\
  infoWS late_final = infoWS test_inited /\ debugWS late_final = debugWS test_inited.
Proof.
  apply (initialized_is_frozen late_calls test_inited late_final);
    vm_compute; reflexivity.
Defined.

(** X9: once [inited] is set, a log call writes the same entries whatever
    calls were made in between: assigning to the [Options] record the logger
    points to, or calling [InitLogger] again with other options, changes
    nothing of what is logged. *)
Theorem logging_unchanged_after_init (cs : list Call) (w w' : World)
    (S : LevelEnabler) (msg : string) (w1 : World) :
  inited (logger w) = true -> run_all cs w = Ok w' ->
  run (CallLog S msg) w = Ok w1 ->
  exists w1', run (CallLog S msg) w' = Ok w1' /\
              new_entries w' w1' = new_entries w w1.
Proof.
  intros Hi H Hlog.
  destruct (initialized_is_frozen cs w w' Hi H) as (Hl & _).
  unfold GetLogger in Hl. cbn [run] in *.
  apply log_Ok_iff in Hlog as (s & ks & Hs & Hc & Hopen & ->).
  eexists. split.
  - apply log_Ok_iff. exists s, ks. rewrite Hl. repeat split; assumption.
  - rewrite (new_entries_app w' _ (map (entry (severity S) msg) ks)) by reflexivity.
    symmetry. apply new_entries_app. reflexivity.
Qed.

Lemma logging_unchanged_after_init_witness :
  exists w1', run (CallLog warnPriority "warn log 1") late_final = Ok w1' /\
              new_entries late_final w1' =
              new_entries test_inited
                (after_run_all [CallLog warnPriority "warn log 1"] test_inited).
Proof.
  apply (logging_unchanged_after_init late_calls test_inited late_final);
    vm_compute; reflexivity.
Defined.

Lemma InitLogger_returns_iff_witness :
  (exists w', InitLogger env_rotate_fails [Some 1%nat] test_world = Ok w') <->
  exists p o zc m,
    installed [Some 1%nat] test_world = Some p /\ heap test_world !! p = Some o /\
    loadCfg_config o = Ok zc /\ zap.Level zc = Some m /\
    Build_err env_rotate_fails zc = None /\
    (m <= zapcore.InfoLevel ->
     open_sink (f env_rotate_fails (loadCfg_defaults env_rotate_fails o)
                  (InfoFileName (loadCfg_defaults env_rotate_fails o))) = true) /\
    (m <= zapcore.DebugLevel ->
     open_sink (f env_rotate_fails (loadCfg_defaults env_rotate_fails o)
                  (DebugFileName (loadCfg_defaults env_rotate_fails o))) = true).
Proof.
  apply (InitLogger_returns_iff env_rotate_fails [Some 1%nat] test_world). reflexivity.
Defined.

(** ** The sinks setSyncers builds *)

Lemma append_cancel_l (a b c : string) : a +:+ b = a +:+ c -> b = c.
Proof.
  induction a as [|x a IH]; simpl; intros H; [exact H|].
  injection H as H. exact (IH H).
Qed.

(** X11: a sink [f] built that is not nil determines its file name: two file
    names give the same sink only when they are equal, so distinct file names
    never share a sink. *)
Theorem f_injective (env : Env) (o : Options) (n1 n2 : string) :
  open_sink (f env o n1) = true ->
  (f env o n1 = f env o n2 <-> n1 = n2).
Proof.
  intros Hopen. split; [|now intros ->].
  unfold f in *. destruct (CutType o =? 0)%Z.
  - intros H. injection H as H. do 4 apply append_cancel_l in H. exact H.
  - destruct (rotatelogs_New_err env (rotate_args env o n1)); [discriminate Hopen|].
    destruct (rotatelogs_New_err env (rotate_args env o n2)); [discriminate|].
    intros H. injection H as _ H. do 4 apply append_cancel_l in H. exact H.
Qed.

Lemma f_injective_witness :
  f env0 test_data "error.log" = f env0 test_data "warn.log" <-> "error.log" = "warn.log".
Proof. apply (f_injective env0 test_data). reflexivity. Defined.

(** X12: after a first [InitLogger] with size-based rotation ([CutType = 0])
    each of the four file sinks is a lumberjack value whose file is
    [dir + sp + app + "-" + name] for the resolved directory, application
    name and file name of its severity, with compression and local time on,
    and whose size, backup count and age are the resolved ones, hence never
    zero: a caller's 0 is replaced by 100, 30 and 30. *)
Theorem size_based_sinks (env : Env) (cfg : list (option loc)) (w w' : World)
    (p : loc) (o : Options) (S : LevelEnabler) :
  inited (logger w) = false -> installed cfg w = Some p -> heap w !! p = Some o ->
  CutType o = 0 ->
  InitLogger env cfg w = Ok w' ->
  exists o' l, heap w' !! p = Some o' /\ file_sink S w' = LumberjackWS l /\
    lumberjack.Filename l =
      LogFileDir o' +:+ sp env +:+ AppName o' +:+ "-" +:+ file_name S o' /\
    lumberjack.MaxSize l = (if MaxSize o =? 0 then 100 else MaxSize o) /\
    lumberjack.MaxBackups l = (if MaxBackups o =? 0 then 30 else MaxBackups o) /\
    lumberjack.MaxAge l = (if MaxAge o =? 0 then 30 else MaxAge o) /\
    lumberjack.MaxSize l <> 0 /\ lumberjack.MaxBackups l <> 0 /\
    lumberjack.MaxAge l <> 0 /\
    lumberjack.Compress l = true /\ lumberjack.LocalTime l = true.
Proof.
  intros Hi Hp Hh HC H.
  destruct (InitLogger_fresh env cfg w w' p o Hi Hp Hh H)
    as (zc & m & _ & _ & _ & _ & Hheap & _ & _ & _ & _ & He & Hwa & Hinf & Hd & _).
  assert (Hsink : file_sink S w' =
                  f env (loadCfg_defaults env o) (file_name S (loadCfg_defaults env o)))
    by (destruct S; assumption).
  assert (HC' : (CutType (loadCfg_defaults env o) =? 0) = true).
  { destruct (loadCfg_defaults_frame env o) as (_ & -> & _). now apply Z.eqb_eq. }
  exists (loadCfg_defaults env o). eexists.
  split; [rewrite Hheap; apply lookup_insert_eq|].
  split; [rewrite Hsink; unfold f; rewrite HC'; reflexivity|].
  cbn [lumberjack.Filename lumberjack.MaxSize lumberjack.MaxBackups lumberjack.MaxAge
       lumberjack.Compress lumberjack.LocalTime].
  split; [reflexivity|].
  rewrite (loadCfg_defaults_fields env o).
  cbn [MaxSize MaxBackups MaxAge].
  repeat split; apply if_zero_nonzero; discriminate.
Qed.

Lemma size_based_sinks_witness :
  exists o' l, heap dev_inited !! 1%nat = Some o' /\
    file_sink errPriority dev_inited = LumberjackWS l /\
    lumberjack.Filename l =
      LogFileDir o' +:+ sp env0 +:+ AppName o' +:+ "-" +:+ file_name errPriority o' /\
    lumberjack.MaxSize l = (if MaxSize dev_options =? 0 then 100 else MaxSize dev_options) /\
    lumberjack.MaxBackups l =
      (if MaxBackups dev_options =? 0 then 30 else MaxBackups dev_options) /\
    lumberjack.MaxAge l = (if MaxAge dev_options =? 0 then 30 else MaxAge dev_options) /\
    lumberjack.MaxSize l <> 0 /\ lumberjack.MaxBackups l <> 0 /\
    lumberjack.MaxAge l <> 0 /\
    lumberjack.Compress l = true /\ lumberjack.LocalTime l = true.
Proof.
  apply (size_based_sinks env0 [Some 1%nat] (world_with dev_options) dev_inited 1%nat
           dev_options);
    vm_compute; reflexivity.
Defined.

(** The default layout on disk, for a caller that sets nothing: the
    directory ends in a separator and [f] adds one more. *)
Example default_error_file :
  exists l, errWS dev_inited = LumberjackWS l /\
    lumberjack.Filename l = "/srv/app/logs//app-error.log".
Proof. eexists. split; reflexivity. Qed.

Lemma wrap64_small (z : Z) : - 2 ^ 63 <= z < 2 ^ 63 -> time.wrap64 z = z.
Proof. intros H. unfold time.wrap64. rewrite Z.mod_small by lia. lia. Qed.

Lemma wrap64_above (z : Z) : 2 ^ 63 <= z < 2 ^ 64 -> time.wrap64 z = z - 2 ^ 64.
Proof.
  intros H. unfold time.wrap64.
  replace (z + 2 ^ 63) with ((z - 2 ^ 63) + 1 * 2 ^ 64) by lia.
  rewrite Z.mod_add by lia. rewrite Z.mod_small by lia. lia.
Qed.

(** X13: on the time-based path the retention handed to rotatelogs is
    exactly [MaxAge] days as long as 0 <= MaxAge <= 106751, the largest
    number of days whose nanoseconds fit in an int64. *)
Theorem retention_exact (env : Env) (o : Options) (n : string) :
  0 <= MaxAge o <= 106751 ->
  rotatelogs.WithMaxAge (rotate_args env o n) = MaxAge o * (24 * time.Hour) /\
  0 <= rotatelogs.WithMaxAge (rotate_args env o n).
Proof.
  intros H. cbn [rotate_args rotatelogs.WithMaxAge].
  unfold time.mul, time.of_int, time.Hour, time.Minute, time.Second.
  rewrite (wrap64_small (MaxAge o)) by lia.
  rewrite (wrap64_small (MaxAge o * 24)) by lia.
  rewrite wrap64_small by lia. lia.
Qed.

Lemma retention_exact_witness :
  rotatelogs.WithMaxAge (rotate_args env0 test_data "error.log")
    = MaxAge test_data * (24 * time.Hour) /\
  0 <= rotatelogs.WithMaxAge (rotate_args env0 test_data "error.log").
Proof. apply (retention_exact env0 test_data "error.log"). vm_compute. split; discriminate. Defined.

(** X14: past that bound the int64 product wraps: for
    106752 <= MaxAge <= 213503 the retention handed to rotatelogs is
    negative, [MaxAge] days minus 2^64 nanoseconds. *)
Theorem retention_wraps (env : Env) (o : Options) (n : string) :
  106752 <= MaxAge o <= 213503 ->
  rotatelogs.WithMaxAge (rotate_args env o n) = MaxAge o * (24 * time.Hour) - 2 ^ 64 /\
  rotatelogs.WithMaxAge (rotate_args env o n) < 0.
Proof.
  intros H. cbn [rotate_args rotatelogs.WithMaxAge].
  unfold time.mul, time.of_int, time.Hour, time.Minute, time.Second.
  rewrite (wrap64_small (MaxAge o)) by lia.
  rewrite (wrap64_small (MaxAge o * 24)) by lia.
  rewrite wrap64_above by lia. lia.
Qed.

Lemma retention_wraps_witness :
  rotatelogs.WithMaxAge (rotate_args env0 far_options "error.log")
    = MaxAge far_options * (24 * time.Hour) - 2 ^ 64 /\
  rotatelogs.WithMaxAge (rotate_args env0 far_options "error.log") < 0.
Proof. apply (retention_wraps env0 far_options "error.log"). vm_compute. split; discriminate. Defined.

(** ** timeUnixNano *)

(** X15: [timeUnixNano] appends, after what the encoder already holds, one
    integer: the time in whole milliseconds since the epoch, rounded toward
    the epoch (down after 1970, up before), and not the nanoseconds its name
    announces. *)
Theorem timeUnixNano_milliseconds (t : Time) (enc : list Primitive) :
  exists ms, timeUnixNano t enc = (enc ++ [AppendInt64 ms])%list /\
    Z.abs (UnixNano t - 1000000 * ms) < 1000000 /\
    (0 <= UnixNano t -> 1000000 * ms <= UnixNano t < 1000000 * (ms + 1)) /\
    (UnixNano t <= 0 -> 1000000 * (ms - 1) < UnixNano t <= 1000000 * ms).
Proof.
  exists (Z.quot (UnixNano t) 1000000). split; [reflexivity|].
  pose proof (Z.quot_rem' (UnixNano t) 1000000) as E.
  assert (Hpos : 0 <= UnixNano t -> 0 <= Z.rem (UnixNano t) 1000000 < 1000000)
    by (intros H; apply Z.rem_bound_pos; lia).
  assert (Hneg : UnixNano t <= 0 -> -1000000 < Z.rem (UnixNano t) 1000000 <= 0)
    by (intros H;
        pose proof (Z.rem_bound_pos_neg (UnixNano t) 1000000 ltac:(lia) H); lia).
  split; [|split]; [destruct (Z_le_gt_dec 0 (UnixNano t))|intros H|intros H];
    lia.
Qed.

(** X16: [timeUnixNano] keeps the order of time: a later time never encodes
    to a smaller number, and two times in the same millisecond after the
    epoch encode alike. *)
Theorem timeUnixNano_monotone (t1 t2 : Time) (enc : list Primitive) (ms1 ms2 : Z) :
  timeUnixNano t1 enc = (enc ++ [AppendInt64 ms1])%list ->
  timeUnixNano t2 enc = (enc ++ [AppendInt64 ms2])%list ->
  UnixNano t1 <= UnixNano t2 ->
  ms1 <= ms2 /\
  (0 <= UnixNano t1 -> UnixNano t2 < 1000000 * (ms1 + 1) -> ms1 = ms2).
Proof.
  unfold timeUnixNano. intros H1 H2 Hle.
  apply app_inv_head in H1, H2. injection H1 as <-. injection H2 as <-.
  split; [apply Z.quot_le_mono; lia|].
  intros H0 Hlt.
  pose proof (Z.quot_rem' (UnixNano t1) 1000000) as E1.
  pose proof (Z.quot_rem' (UnixNano t2) 1000000) as E2.
  pose proof (Z.rem_bound_pos (UnixNano t1) 1000000 ltac:(lia) ltac:(lia)).
  pose proof (Z.rem_bound_pos (UnixNano t2) 1000000 ltac:(lia) ltac:(lia)).
  lia.
Qed.

Lemma timeUnixNano_monotone_witness :
  1700000000123 <= 1700000000123 /\
  (0 <= UnixNano {| UnixNano := 1700000000123456789 |} ->
   UnixNano {| UnixNano := 1700000000123999999 |} < 1000000 * (1700000000123 + 1) ->
   1700000000123 = 1700000000123).
Proof.
  apply (timeUnixNano_monotone {| UnixNano := 1700000000123456789 |}
           {| UnixNano := 1700000000123999999 |} []);
    [reflexivity | reflexivity | vm_compute; discriminate].
Defined.

(** ** Failures of the two rotation backends, through InitLogger *)

Lemma Write_closed (lvl : zapcore.Level) (msg : string) (cs : list Core) :
  forallb (fun c => open_sink (core_out c)) cs = false ->
  Write lvl msg cs = Panic nil_deref.
Proof.
  induction cs as [|c cs IH]; simpl; [discriminate|].
  intros H. apply andb_false_iff in H as [H|H].
  - destruct (core_out c) as [| |[r|]| |]; simpl in H; try discriminate; reflexivity.
  - rewrite (IH H). destruct (core_out c) as [| |[r|]| |]; reflexivity.
Qed.

Lemma log_closed (lvl : zapcore.Level) (msg : string) (w : World) (m : zapcore.Level)
    (s : SugaredLogger) :
  zap.Level (zapConfig (logger w)) = Some m -> -1 <= m <= 2 ->
  Sugared (logger w) = Some s ->
  forallb (fun c => open_sink (core_out c)) (List.filter (accepts m lvl) (NewTee s)) = false ->
  log lvl msg w = Panic nil_deref.
Proof.
  intros Hm Hr Hs Hclosed. unfold log. rewrite Hs.
  rewrite (Check_filter _ m) by assumption. rewrite bind_ret_l.
  now rewrite (Write_closed _ _ _ Hclosed).
Qed.

(** A first [InitLogger] up to its closing notice: [Build] decides whether
    the notice is reached, and the notice is logged on the cores over the
    sinks [setSyncers] built from the resolved options. *)
Lemma first_InitLogger_unfold (env : Env) (cfg : list (option loc)) (w : World)
    (p : loc) (o : Options) (zc : zap.Config) :
  inited (logger w) = false -> installed cfg w = Some p -> heap w !! p = Some o ->
  loadCfg_config o = Ok zc ->
  exists w2,
    zapConfig (logger w2) = zc /\
    Sugared (logger w2) =
      Some {| NewTee := if Development o
                        then (file_cores w2 ++ console_cores)%list
                        else file_cores w2 |} /\
    (forall S, file_sink S w2 =
               f env (loadCfg_defaults env o) (file_name S (loadCfg_defaults env o))) /\
    InitLogger env cfg w =
      match Build_err env zc with
      | Some err => Panic err
      | None =>
          Logger_Info "[initLogger] zap plugin initializing completed" w2
            ≫= fun w3 => Ok (set_logger (set_inited true (logger w3)) w3)
      end.
Proof.
  intros Hi Hp Hh Hzc. unfold InitLogger. rewrite Hi.
  set (w0 := match cfg with
             | c :: _ => set_logger (set_Opts c (logger w)) w
             | [] => w
             end).
  assert (HO0 : Opts (logger w0) = Some p)
    by (subst w0; destruct cfg; simpl in *; assumption).
  assert (Hh0 : heap w0 !! p = Some o)
    by (subst w0; destruct cfg; simpl in *; assumption).
  clearbody w0.
  destruct (loadCfg_Ok env w0 p o HO0 Hh0) as (zc' & Hzc' & ->).
  rewrite Hzc in Hzc'. injection Hzc' as <-.
  rewrite bind_ret_l.
  set (o' := loadCfg_defaults env o) in *.
  set (w1 := set_heap _ _).
  assert (HO1 : Opts (logger w1) = Some p) by exact HO0.
  assert (Hh1 : heap w1 !! p = Some o') by (subst w1; simpl; apply lookup_insert_eq).
  rewrite (init_eq env w1 p o' HO1 Hh1). cbv zeta.
  change (zapConfig (logger w1)) with zc.
  assert (HD : Development o' = Development o)
    by (subst o'; destruct (loadCfg_defaults_frame env o) as (_ & _ & E & _); exact E).
  rewrite HD.
  eexists. split; [|split; [|split]].
  4: { destruct (Build_err env zc); [reflexivity|]. rewrite bind_ret_l. reflexivity. }
  - reflexivity.
  - reflexivity.
  - intros []; reflexivity.
Qed.




(** ** The time-based sink rotates by the hour *)

Lemma append_cons (x : ascii) (a b : string) :
  String x a +:+ b = String x (a +:+ b).
Proof. reflexivity. Qed.

Lemma append_nil_l (b : string) : "" +:+ b = b.
Proof. reflexivity. Qed.

Lemma append_assoc3 (a b c : string) : (a +:+ b) +:+ c = a +:+ (b +:+ c).
Proof.
  induction a as [|x a IH]; [reflexivity|].
  now rewrite !append_cons, IH.
Qed.

Lemma no_percent_append (a b : string) :
  no_percent (a +:+ b) = no_percent a && no_percent b.
Proof.
  induction a as [|x a IH]; [reflexivity|].
  rewrite append_cons. cbn [no_percent].
  rewrite IH. now destruct (negb (Ascii.eqb x "%")).
Qed.

(** A stretch without a percent sign is copied as it is. *)
Lemma strftime_literal (a b : string) (c : Wall) :
  no_percent a = true ->
  strftime (a +:+ b) c =
  match strftime b c with
  | Some out => Some (a +:+ out)
  | None => None
  end.
Proof.
  induction a as [|x a IH]; intros H.
  - rewrite append_nil_l. now destruct (strftime b c).
  - cbn [no_percent] in H. apply andb_true_iff in H as [Hx Ha].
    apply negb_true_iff in Hx.
    rewrite append_cons. cbn [strftime]. rewrite Hx, (IH Ha).
    now destruct (strftime b c).
Qed.

Lemma strftime_hour_suffix (c : Wall) :
  strftime ".%Y_%m%d_%H" c =
  Some ("." +:+ pad4 (year c) +:+ "_" +:+ pad2 (month c) +:+ pad2 (day c)
            +:+ "_" +:+ pad2 (hour c)).
Proof. reflexivity. Qed.

(** Rounding down to the minute clears the seconds and leaves the hour. *)
Lemma Truncate_minute (c : Wall) :
  wall_ok c ->
  Truncate time.Minute c =
  Some {| year := year c; month := month c; day := day c; hour := hour c;
          minute := minute c; second := 0; nanosecond := 0 |}.
Proof.
  intros (_ & _ & _ & Hh & Hm & Hs & Hn).
  unfold Truncate.
  change (time.Minute <=? 0) with false.
  change (24 * time.Hour mod time.Minute =? 0) with true.
  cbv iota zeta.
  assert (Et : time_of_day c - time_of_day c mod time.Minute
               = hour c * time.Hour + minute c * time.Minute).
  { unfold time_of_day, time.Hour, time.Minute, time.Second.
    Z.div_mod_to_equations. lia. }
  rewrite Et. unfold time.Hour, time.Minute, time.Second.
  f_equal. f_equal; Z.div_mod_to_equations; lia.
Qed.

Lemma digit_inj (a b : Z) :
  0 <= a <= 9 -> 0 <= b <= 9 -> digit a = digit b -> a = b.
Proof.
  intros Ha Hb H. unfold digit in H.
  apply (f_equal nat_of_ascii) in H.
  rewrite !nat_ascii_embedding in H by lia. lia.
Qed.

Lemma String_inj (x y : ascii) (a b : string) :
  String x a = String y b -> x = y /\ a = b.
Proof. intros H. injection H as H1 H2. auto. Qed.

Lemma pad2_inj (a b : Z) (s t : string) :
  0 <= a <= 99 -> 0 <= b <= 99 -> pad2 a +:+ s = pad2 b +:+ t -> a = b /\ s = t.
Proof.
  intros Ha Hb H. unfold pad2 in H. rewrite !append_cons, !append_nil_l in H.
  apply String_inj in H as [H1 H]. apply String_inj in H as [H2 H3].
  apply digit_inj in H1; [|Z.div_mod_to_equations; lia..].
  apply digit_inj in H2; [|Z.div_mod_to_equations; lia..].
  split; [|exact H3]. Z.div_mod_to_equations. lia.
Qed.

Lemma pad4_inj (a b : Z) (s t : string) :
  0 <= a <= 9999 -> 0 <= b <= 9999 -> pad4 a +:+ s = pad4 b +:+ t -> a = b /\ s = t.
Proof.
  intros Ha Hb H. unfold pad4 in H. rewrite !append_cons in H.
  apply String_inj in H as [H1 H]. apply String_inj in H as [H2 H3].
  apply digit_inj in H1; [|Z.div_mod_to_equations; lia..].
  apply digit_inj in H2; [|Z.div_mod_to_equations; lia..].
  apply pad2_inj in H3 as [H3 H4]; [|Z.div_mod_to_equations; lia..].
  split; [|exact H4]. Z.div_mod_to_equations. lia.
Qed.

Lemma append_nil_r_str (a : string) : a +:+ "" = a.
Proof.
  induction a as [|x a IH]; [reflexivity|]. now rewrite append_cons, IH.
Qed.

Lemma hourly_name_inj (link : string) (c1 c2 : Wall) :
  wall_ok c1 -> wall_ok c2 ->
  hourly_name link c1 = hourly_name link c2 -> same_hour c1 c2.
Proof.
  intros (Hy1 & Hm1 & Hd1 & Hh1 & _) (Hy2 & Hm2 & Hd2 & Hh2 & _) H.
  unfold hourly_name in H. apply append_cancel_l in H.
  rewrite ?append_cons, ?append_nil_l in H. apply String_inj in H as [_ H].
  apply pad4_inj in H as [Ey H]; [|lia..].
  rewrite ?append_cons, ?append_nil_l in H. apply String_inj in H as [_ H].
  apply pad2_inj in H as [Em H]; [|lia..].
  apply pad2_inj in H as [Ed H]; [|lia..].
  rewrite ?append_cons, ?append_nil_l in H. apply String_inj in H as [_ H].
  rewrite <- (append_nil_r_str (pad2 (hour c1))), <- (append_nil_r_str (pad2 (hour c2))) in H.
  apply pad2_inj in H as [Eh _]; [|lia..].
  repeat split; assumption.
Qed.

Lemma rotate_args_pattern (env : Env) (o : Options) (n : string) :
  rotatelogs.pattern (rotate_args env o n) =
  rotatelogs.WithLinkName (rotate_args env o n) +:+ ".%Y_%m%d_%H".
Proof.
  cbn [rotate_args rotatelogs.pattern rotatelogs.WithLinkName].
  now rewrite !append_assoc3.
Qed.

(** The file a sink built by [f] is writing to at a clock reading. *)
Lemma GenerateFn_rotate_args (env : Env) (o : Options) (n : string) (now : Wall) :
  no_percent (rotatelogs.WithLinkName (rotate_args env o n)) = true ->
  wall_ok now ->
  GenerateFn (rotate_args env o n) now =
  Some (hourly_name (rotatelogs.WithLinkName (rotate_args env o n)) now).
Proof.
  intros Hnp Hok. unfold GenerateFn.
  change (rotatelogs.WithRotationTime (rotate_args env o n)) with time.Minute.
  rewrite (Truncate_minute now Hok), rotate_args_pattern.
  rewrite (strftime_literal _ _ _ Hnp), strftime_hour_suffix.
  reflexivity.
Qed.




(** The options of [TestZaplog] across an hour boundary: 07:20 and 07:59
    write to one file, 08:00 starts the next. *)
Example test_data_hour_boundary :
  map (GenerateFn (rotate_args env0 test_data "error.log")) [clock_1; clock_2; clock_3] =
  [ Some "../logs/logtool-error.log.2026_1031_07";
    Some "../logs/logtool-error.log.2026_1031_07";
    Some "../logs/logtool-error.log.2026_1031_08" ].
Proof. reflexivity. Qed.
